(** * Cost optimizer Lambda: a shallow embedding of
      [infra/terraform/lambda/cost_optimizer.py]

    The development follows the Python module function by function.
    External collaborators (Cost Explorer, EC2, RDS, SNS, the process
    environment and the clock) are gathered in a [World] record; the
    code runs in a small monad that threads the function's mutable local
    list, records every external call and every [print] in a trace, and
    propagates Python exceptions. *)

From Stdlib Require Import ZArith List String Ascii Bool Lia DecimalString.
From Stdlib Require Import Permutation Sorted.
Import ListNotations.
Open Scope string_scope.
Open Scope Z_scope.

(** ** Strings *)

Definition nl : string := String (ascii_of_nat 10) EmptyString.

(** [str(n)] for a Python [int]. *)
Definition str_of_Z (z : Z) : string := NilZero.string_of_int (Z.to_int z).

(** [s.startswith(p)]. *)
Definition startswith (s p : string) : bool := String.prefix p s.

(** [p in s] for strings. *)
Fixpoint contains (p s : string) : bool :=
  String.prefix p s ||
  match s with
  | EmptyString => false
  | String _ s' => contains p s'
  end.

(** ** [decimal.Decimal]

    Finite numbers only, in Python's sign / coefficient / exponent
    representation, under the default context (precision 28,
    ROUND_HALF_EVEN).  NaN, infinities and the exponent limits
    (Emax = 999999) are outside the model. *)

Module PyDecimal.

Record t : Type := Dec { d_sign : bool; d_int : Z; d_exp : Z }.

Definition prec : Z := 28.

(** [Decimal(n)] for a Python [int] [n]. *)
Definition of_Z (n : Z) : t := Dec (n <? 0) (Z.abs n) 0.

Definition is_zero (d : t) : bool := d_int d =? 0.

(** The signed coefficient. *)
Definition signed (d : t) : Z := if d_sign d then - d_int d else d_int d.

Fixpoint len_fuel (fuel : nat) (c : Z) : Z :=
  match fuel with
  | O => 1
  | S f => if c <? 10 then 1 else 1 + len_fuel f (c / 10)
  end.

(** [len(self._int)]: the number of decimal digits of a coefficient. *)
Definition len (c : Z) : Z := len_fuel (Z.to_nat (Z.log2 c)) c.

(** Drop the [k] low digits of [c], rounding half to even
    ([_round_half_even] of the reference implementation). *)
Definition round_half_even (c k : Z) : Z :=
  let p := 10 ^ k in
  let q := c / p in
  let r := c mod p in
  if (2 * r >? p) || ((2 * r =? p) && Z.odd q) then q + 1 else q.

(** [_fix]: round to the context precision. *)
Definition fix_ (d : t) : t :=
  let n := len (d_int d) in
  if (d_int d =? 0) || (n <=? prec) then d
  else
    let k := n - prec in
    let c := round_half_even (d_int d) k in
    if len c >? prec
    then Dec (d_sign d) (c / 10) (d_exp d + k + 1)
    else Dec (d_sign d) c (d_exp d + k).

(** [_rescale(exp, ROUND_HALF_EVEN)]. *)
Definition rescale (d : t) (e : Z) : t :=
  if d_int d =? 0 then Dec (d_sign d) 0 e
  else if d_exp d >=? e then Dec (d_sign d) (d_int d * 10 ^ (d_exp d - e)) e
  else Dec (d_sign d) (round_half_even (d_int d) (e - d_exp d)) e.

(** [a + b]: the exact sum, rounded to the context precision. *)
Definition add (a b : t) : t :=
  let e := Z.min (d_exp a) (d_exp b) in
  if is_zero a && is_zero b then fix_ (Dec (d_sign a && d_sign b) 0 e)
  else if is_zero a then fix_ (rescale b (Z.max e (d_exp b - prec - 1)))
  else if is_zero b then fix_ (rescale a (Z.max e (d_exp a - prec - 1)))
  else
    let s := signed a * 10 ^ (d_exp a - e) + signed b * 10 ^ (d_exp b - e) in
    fix_ (Dec (s <? 0) (Z.abs s) e).

(** [a * b]. *)
Definition mul (a b : t) : t :=
  fix_ (Dec (xorb (d_sign a) (d_sign b)) (d_int a * d_int b) (d_exp a + d_exp b)).

Fixpoint strip_fuel (fuel : nat) (c e ideal : Z) : Z * Z :=
  match fuel with
  | O => (c, e)
  | S f => if (e <? ideal) && (c mod 10 =? 0)
           then strip_fuel f (c / 10) (e + 1) ideal
           else (c, e)
  end.

(** [a / b] ([__truediv__]); [None] stands for the DivisionByZero /
    InvalidOperation exception raised on a zero divisor. *)
Definition div (a b : t) : option t :=
  let s := xorb (d_sign a) (d_sign b) in
  if is_zero b then None
  else if is_zero a then Some (fix_ (Dec s 0 (d_exp a - d_exp b)))
  else
    let shift := len (d_int b) - len (d_int a) + prec + 1 in
    let e := d_exp a - d_exp b - shift in
    let num := if shift >=? 0 then d_int a * 10 ^ shift else d_int a in
    let den := if shift >=? 0 then d_int b else d_int b * 10 ^ (- shift) in
    let q := num / den in
    let r := num mod den in
    if r =? 0 then
      let '(c, e') := strip_fuel (Z.to_nat (d_exp a - d_exp b - e)) q e
                                 (d_exp a - d_exp b) in
      Some (fix_ (Dec s c e'))
    else
      Some (fix_ (Dec s (if q mod 5 =? 0 then q + 1 else q) e)).

(** [a > b]: numeric comparison. *)
Definition gtb (a b : t) : bool :=
  let e := Z.min (d_exp a) (d_exp b) in
  signed a * 10 ^ (d_exp a - e) >? signed b * 10 ^ (d_exp b - e).

(** [format(d, '.<places>f')]: rescale to [-places] under the context
    rounding, then print sign, integer part and fraction. *)
Definition pad_left (n : nat) (s : string) : string :=
  let fix zeros (k : nat) : string :=
    match k with O => EmptyString | S k' => String "0" (zeros k') end in
  zeros (n - String.length s)%nat ++ s.

Definition format_f (places : Z) (d : t) : string :=
  let r := rescale d (- places) in
  let p := 10 ^ places in
  (if d_sign r then "-" else EmptyString)
    ++ str_of_Z (d_int r / p)
    ++ (if places >? 0
        then "." ++ pad_left (Z.to_nat places) (str_of_Z (d_int r mod p))
        else EmptyString).

End PyDecimal.

(** The two shapes a formatted percentage can take at line 262: a
    [Decimal], or the [int] literal [0]. *)
Inductive number : Type :=
| NDecimal (d : PyDecimal.t)
| NInt (n : Z).

(** [f"{x:.1f}"].  An [int] is formatted through [float]; the model
    covers the integers a float holds exactly. *)
Definition format_1f (x : number) : string :=
  match x with
  | NDecimal d => PyDecimal.format_f 1 d
  | NInt n => str_of_Z n ++ ".0"
  end.

(** ** Dictionaries

    Python dictionaries keep insertion order, and the report sorts
    [service_costs.items()] stably, so the order is part of the model:
    a dictionary is an association list with unique keys. *)

Definition dict (V : Type) : Type := list (string * V).

Fixpoint dict_lookup {V} (d : dict V) (k : string) : option V :=
  match d with
  | [] => None
  | (k', v) :: d' => if String.eqb k' k then Some v else dict_lookup d' k
  end.

(** [d.get(k, default)]. *)
Definition dict_get {V} (d : dict V) (k : string) (default : V) : V :=
  match dict_lookup d k with Some v => v | None => default end.

(** [d[k] = v]: overwrite in place, or append a new key. *)
Fixpoint dict_set {V} (d : dict V) (k : string) (v : V) : dict V :=
  match d with
  | [] => [(k, v)]
  | (k', v') :: d' =>
      if String.eqb k' k then (k', v) :: d' else (k', v') :: dict_set d' k v
  end.

(** [k in d]. *)
Definition dict_mem {V} (d : dict V) (k : string) : bool :=
  match dict_lookup d k with Some _ => true | None => false end.

(** ** Exceptions, results, JSON *)

Inductive exn : Type :=
| KeyError (key : string)
| NameError (name : string)
| DivisionByZero
| ServiceError (message : string).

(** [str(e)]. *)
Definition str_exn (e : exn) : string :=
  match e with
  | KeyError key => "'" ++ key ++ "'"
  | NameError name => "name '" ++ name ++ "' is not defined"
  | DivisionByZero => "[<class 'decimal.DivisionByZero'>]"
  | ServiceError message => message
  end.

Inductive result (A : Type) : Type :=
| Ok (a : A)
| Raise (e : exn).
Arguments Ok {A} a.
Arguments Raise {A} e.

(** The dictionary handed to [json.dumps]; [JFloat d] is [float(d)]. *)
Inductive json_value : Type :=
| JString (s : string)
| JInt (n : Z)
| JFloat (d : PyDecimal.t).

Definition json : Type := dict json_value.

Record response : Type := { statusCode : Z; body : json }.

(** ** Data exchanged with the collaborators

    Resource descriptions are dictionaries in the source; the keys the
    code reads are the fields below, [None] standing for an absent key. *)

Record instance : Type :=
  { InstanceId : option string;
    InstanceType : option string;
    SpotInstanceRequestId : option string }.

Record volume : Type :=
  { VolumeId : option string;
    Size : option Z }.

Record db_instance : Type :=
  { DBInstanceIdentifier : option string;
    DBInstanceClass : option string;
    BackupRetentionPeriod : option Z }.

Record filter : Type := { Name : string; Values : list string }.

(** The keyword arguments of [get_cost_and_usage]; dates are day
    numbers (rendered by [strftime('%Y-%m-%d')] in the source). *)
Record cost_request : Type :=
  { TimePeriod_Start : Z;
    TimePeriod_End : Z;
    Granularity : string;
    Metrics : list string;
    GroupBy : list (string * string);
    Filter_Tags_Key : string;
    Filter_Tags_Values : list string }.

(** [ResultsByTime], each with its [Groups]; a group is its first key
    and the [Decimal] read from its BlendedCost amount. *)
Definition cost_response : Type := list (list (string * PyDecimal.t)).

(** A recommendation is a dictionary of strings. *)
Definition recommendation : Type := dict string.

Inductive event : Type :=
| GetCostAndUsage (req : cost_request)
| DescribeInstances (Filters : list filter)
| DescribeVolumes (Filters : list filter)
| DescribeDBInstances
| Publish (TopicArn Subject Message : string)
| Print (line : string).

Record ec2_client_t : Type :=
  { ec2_describe_instances : list filter -> result (list (list instance));
    ec2_describe_volumes : list filter -> result (list volume) }.

Record rds_client_t : Type :=
  { rds_describe_db_instances : result (list db_instance) }.

Record ce_client_t : Type :=
  { ce_get_cost_and_usage : cost_request -> result cost_response }.

Record sns_client_t : Type :=
  { sns_publish : string -> string -> string -> result unit }.

(** Everything the module depends on and does not define: the process
    environment, the clock, the four clients [boto3.client] returns, and
    the rendering of binary floating-point values, which is left
    abstract. *)
Record World : Type :=
  { environ : dict string;
    today : Z;
    now_strftime : string;
    boto3_ce : ce_client_t;
    boto3_ec2 : ec2_client_t;
    boto3_rds : rds_client_t;
    boto3_sns : sns_client_t;
    float_2f : PyDecimal.t -> string;
    volume_savings_2f : Z -> string }.

(** The string-valued names bound at module level.  The source binds
    none: [project_name] and [environment] are locals of [handler]. *)
Definition module_globals : dict string := [].

(** ** The execution monad *)

Record run (S A : Type) : Type :=
  Run { outcome : result A; locals : S; trace : list event }.
Arguments Run {S A} outcome locals trace.
Arguments outcome {S A} r.
Arguments locals {S A} r.
Arguments trace {S A} r.

Definition M (S A : Type) : Type := World -> S -> run S A.

Definition ret {S A} (a : A) : M S A := fun _ s => Run (Ok a) s [].

Definition raise {S A} (e : exn) : M S A := fun _ s => Run (Raise e) s [].

Definition bind {S A B} (m : M S A) (f : A -> M S B) : M S B :=
  fun w s =>
    match m w s with
    | Run (Ok a) s1 t1 =>
        let r := f a w s1 in Run (outcome r) (locals r) (t1 ++ trace r)%list
    | Run (Raise e) s1 t1 => Run (Raise e) s1 t1
    end.

Notation "x <- m ;; k" := (bind m (fun x => k))
  (at level 61, m at next level, right associativity).
Notation "m ;; k" := (bind m (fun _ => k))
  (at level 61, right associativity).

(** [try: m except Exception as e: h e]. *)
Definition try_except {S A} (m : M S A) (h : exn -> M S A) : M S A :=
  fun w s =>
    match m w s with
    | Run (Raise e) s1 t1 =>
        let r := h e w s1 in Run (outcome r) (locals r) (t1 ++ trace r)%list
    | r => r
    end.

Definition get {S} : M S S := fun _ s => Run (Ok s) s [].
Definition modify {S} (f : S -> S) : M S unit := fun _ s => Run (Ok tt) (f s) [].
Definition ask {S} : M S World := fun w s => Run (Ok w) s [].
Definition emit {S} (ev : event) : M S unit := fun _ s => Run (Ok tt) s [ev].
Definition lift {S A} (r : result A) : M S A := fun _ s => Run r s [].

(** A function body runs in a fresh frame of locals. *)
Definition frame {S S' A} (init : S) (m : M S A) : M S' A :=
  fun w s' => let r := m w init in Run (outcome r) s' (trace r).

Definition when {S} (b : bool) (m : M S unit) : M S unit :=
  if b then m else ret tt.

Fixpoint for_each {S A} (xs : list A) (body : A -> M S unit) : M S unit :=
  match xs with
  | [] => ret tt
  | x :: xs' => body x ;; for_each xs' body
  end.

(** [print(line)]. *)
Definition print {S} (line : string) : M S unit := emit (Print line).

(** [record[key]] on a resource description. *)
Definition getitem {S A} (field : option A) (key : string) : M S A :=
  match field with Some v => ret v | None => raise (KeyError key) end.

(** [d[key]] on a dictionary. *)
Definition dict_getitem {S V} (d : dict V) (key : string) : M S V :=
  getitem (dict_lookup d key) key.

(** A free variable of a function body, looked up at module level. *)
Definition load_global {S} (name : string) : M S string :=
  match dict_lookup module_globals name with
  | Some v => ret v
  | None => raise (NameError name)
  end.

(** [recommendations.append(r)] and [recommendations.extend(rs)]. *)
Definition append (r : recommendation) : M (list recommendation) unit :=
  modify (fun recommendations => recommendations ++ [r])%list.
Definition extend (rs : list recommendation) : M (list recommendation) unit :=
  modify (fun recommendations => recommendations ++ rs)%list.

(** Calls to the collaborators: each is one event of the trace. *)
Definition describe_instances {S} (c : ec2_client_t) (Filters : list filter)
  : M S (list (list instance)) :=
  emit (DescribeInstances Filters) ;; lift (ec2_describe_instances c Filters).

Definition describe_volumes {S} (c : ec2_client_t) (Filters : list filter)
  : M S (list volume) :=
  emit (DescribeVolumes Filters) ;; lift (ec2_describe_volumes c Filters).

Definition describe_db_instances {S} (c : rds_client_t) : M S (list db_instance) :=
  emit DescribeDBInstances ;; lift (rds_describe_db_instances c).

Definition get_cost_and_usage {S} (c : ce_client_t) (req : cost_request)
  : M S cost_response :=
  emit (GetCostAndUsage req) ;; lift (ce_get_cost_and_usage c req).

Definition publish {S} (c : sns_client_t) (TopicArn Subject Message : string)
  : M S unit :=
  emit (Publish TopicArn Subject Message) ;; lift (sns_publish c TopicArn Subject Message).

(** [os.environ[key]]. *)
Definition os_environ {S} (key : string) : M S string :=
  w <- ask ;; dict_getitem (environ w) key.

(** ** The module *)

(** [Decimal('<n>')] for the integer literals of the source. *)
Definition Decimal (n : Z) : PyDecimal.t := PyDecimal.of_Z n.

Declare Scope decimal_scope.
Notation "a >? b" := (PyDecimal.gtb a b) : decimal_scope.
Notation "a + b" := (PyDecimal.add a b) : decimal_scope.
Delimit Scope decimal_scope with D.

(** *** The recommendation records

    The dictionary literals of the analyzers, named after their
    ['type']. *)

(** Lines 116-122. *)
Definition EC2_RIGHTSIZING (resource instance_type : string) : recommendation :=
  [ ("type", "EC2_RIGHTSIZING");
    ("resource", resource);
    ("current_type", instance_type);
    ("recommendation",
     "Consider downsizing to m5.medium if CPU utilization is consistently low");
    ("potential_savings", "Up to 50% cost reduction") ].

(** Lines 126-131. *)
Definition EC2_SPOT_INSTANCES (resource : string) : recommendation :=
  [ ("type", "EC2_SPOT_INSTANCES");
    ("resource", resource);
    ("recommendation", "Consider using Spot instances for non-critical workloads");
    ("potential_savings", "Up to 70% cost reduction") ].

(** Lines 154-160. *)
Definition RDS_RIGHTSIZING (resource db_class : string) : recommendation :=
  [ ("type", "RDS_RIGHTSIZING");
    ("resource", resource);
    ("current_class", db_class);
    ("recommendation",
     "Monitor CPU and memory utilization to determine if downsizing is possible");
    ("potential_savings", "Up to 40% cost reduction") ].

(** Lines 165-171. *)
Definition RDS_BACKUP_OPTIMIZATION (resource : string) (backup_retention : Z)
  : recommendation :=
  [ ("type", "RDS_BACKUP_OPTIMIZATION");
    ("resource", resource);
    ("current_retention", str_of_Z backup_retention ++ " days");
    ("recommendation",
     "Consider reducing backup retention period if not required for compliance");
    ("potential_savings", "Reduce backup storage costs") ].

(** Lines 186-190. *)
Definition S3_LIFECYCLE_OPTIMIZATION : recommendation :=
  [ ("type", "S3_LIFECYCLE_OPTIMIZATION");
    ("recommendation",
     "Implement S3 lifecycle policies to transition old objects to cheaper storage classes");
    ("potential_savings",
     "Up to 60% on storage costs for infrequently accessed data") ].

(** Lines 193-197. *)
Definition EBS_OPTIMIZATION : recommendation :=
  [ ("type", "EBS_OPTIMIZATION");
    ("recommendation",
     "Review EBS volumes for unused or oversized volumes, consider gp3 over gp2");
    ("potential_savings", "Up to 20% on EBS costs") ].

(** Lines 216-221. *)
Definition UNUSED_EC2_INSTANCE (resource : string) : recommendation :=
  [ ("type", "UNUSED_EC2_INSTANCE");
    ("resource", resource);
    ("recommendation",
     "Consider terminating long-stopped instances if no longer needed");
    ("potential_savings", "Eliminate EBS storage costs") ].

(** Lines 232-238. *)
Definition UNATTACHED_EBS_VOLUME (w : World) (resource : string) (size : Z)
  : recommendation :=
  [ ("type", "UNATTACHED_EBS_VOLUME");
    ("resource", resource);
    ("size", str_of_Z size ++ " GB");
    ("recommendation", "Delete unattached EBS volumes if no longer needed");
    ("potential_savings", "$" ++ volume_savings_2f w size ++ "/month") ].

(** *** [analyze_ec2_costs] (lines 94-136) *)

(** The loop body, lines 112-131. *)
Definition ec2_instance_checks (instance : instance)
  : M (list recommendation) unit :=
  instance_type <- getitem (InstanceType instance) "InstanceType" ;;
  when (startswith instance_type "m5.large"
        || startswith instance_type "m5.xlarge") (
    resource <- getitem (InstanceId instance) "InstanceId" ;;
    append (EC2_RIGHTSIZING resource instance_type)) ;;
  when (match SpotInstanceRequestId instance with
        | None => true | Some _ => false end) (
    resource <- getitem (InstanceId instance) "InstanceId" ;;
    append (EC2_SPOT_INSTANCES resource)).

Definition analyze_ec2_costs {S} (ec2_client : ec2_client_t)
    (service_costs : dict PyDecimal.t) : M S (list recommendation) :=
  frame [] (
    let ec2_cost :=
      dict_get service_costs "Amazon Elastic Compute Cloud - Compute" (Decimal 0) in
    when (ec2_cost >? Decimal 100)%D (
      try_except (
        instances <- describe_instances ec2_client
          [ {| Name := "instance-state-name"; Values := ["running"] |};
            {| Name := "tag:Project"; Values := ["${project_name}"] |} ] ;;
        for_each instances (fun reservation =>
          for_each reservation ec2_instance_checks))
        (fun e => print ("Error analyzing EC2 costs: " ++ str_exn e))) ;;
    get).

(** *** [analyze_rds_costs] (lines 138-176) *)

(** The loop body, lines 150-171. *)
Definition rds_instance_checks (db_instance : db_instance)
  : M (list recommendation) unit :=
  db_class <- getitem (DBInstanceClass db_instance) "DBInstanceClass" ;;
  when (contains "large" db_class || contains "xlarge" db_class) (
    resource <- getitem (DBInstanceIdentifier db_instance) "DBInstanceIdentifier" ;;
    append (RDS_RIGHTSIZING resource db_class)) ;;
  let backup_retention :=
    match BackupRetentionPeriod db_instance with
    | Some n => n
    | None => 0
    end in
  when (backup_retention >? 7) (
    resource <- getitem (DBInstanceIdentifier db_instance) "DBInstanceIdentifier" ;;
    append (RDS_BACKUP_OPTIMIZATION resource backup_retention)).

Definition analyze_rds_costs {S} (rds_client : rds_client_t)
    (service_costs : dict PyDecimal.t) : M S (list recommendation) :=
  frame [] (
    let rds_cost :=
      dict_get service_costs "Amazon Relational Database Service" (Decimal 0) in
    when (rds_cost >? Decimal 50)%D (
      try_except (
        db_instances <- describe_db_instances rds_client ;;
        for_each db_instances rds_instance_checks)
        (fun e => print ("Error analyzing RDS costs: " ++ str_exn e))) ;;
    get).

(** *** [analyze_storage_costs] (lines 178-199) *)

Definition analyze_storage_costs {S} (service_costs : dict PyDecimal.t)
  : M S (list recommendation) :=
  frame [] (
    let s3_cost := dict_get service_costs "Amazon Simple Storage Service" (Decimal 0) in
    let ebs_cost := dict_get service_costs "Amazon Elastic Block Store" (Decimal 0) in
    when (s3_cost >? Decimal 20)%D (
      append S3_LIFECYCLE_OPTIMIZATION) ;;
    when (ebs_cost >? Decimal 30)%D (
      append EBS_OPTIMIZATION) ;;
    get).

(** *** [check_unused_resources] (lines 201-243) *)

(** The loop bodies, lines 216-221 and 232-238. *)
Definition stopped_instance_entry (instance : instance)
  : M (list recommendation) unit :=
  resource <- getitem (InstanceId instance) "InstanceId" ;;
  append (UNUSED_EC2_INSTANCE resource).

Definition volume_entry (volume : volume) : M (list recommendation) unit :=
  resource <- getitem (VolumeId volume) "VolumeId" ;;
  size <- getitem (Size volume) "Size" ;;
  w <- ask ;;
  append (UNATTACHED_EBS_VOLUME w resource size).

Definition check_unused_resources {S} (ec2_client : ec2_client_t)
    (rds_client : rds_client_t) : M S (list recommendation) :=
  frame [] (
    try_except (
      stopped_instances <- describe_instances ec2_client
        [ {| Name := "instance-state-name"; Values := ["stopped"] |};
          {| Name := "tag:Project"; Values := ["${project_name}"] |} ] ;;
      for_each stopped_instances (fun reservation =>
        for_each reservation stopped_instance_entry) ;;
      volumes <- describe_volumes ec2_client
        [ {| Name := "status"; Values := ["available"] |};
          {| Name := "tag:Project"; Values := ["${project_name}"] |} ] ;;
      for_each volumes volume_entry)
      (fun e => print ("Error checking unused resources: " ++ str_exn e)) ;;
    get).

(** *** [generate_cost_report] (lines 245-280) *)

Definition is_upper (c : ascii) : bool :=
  let n := nat_of_ascii c in (65 <=? n)%nat && (n <=? 90)%nat.
Definition is_lower (c : ascii) : bool :=
  let n := nat_of_ascii c in (97 <=? n)%nat && (n <=? 122)%nat.
Definition to_upper (c : ascii) : ascii :=
  if is_lower c then ascii_of_nat (nat_of_ascii c - 32) else c.
Definition to_lower (c : ascii) : ascii :=
  if is_upper c then ascii_of_nat (nat_of_ascii c + 32) else c.

(** [s.replace('_', ' ')]. *)
Fixpoint replace_underscores (s : string) : string :=
  match s with
  | EmptyString => EmptyString
  | String c s' =>
      String (if Ascii.eqb c "_" then " "%char else c) (replace_underscores s')
  end.

(** [s.title()] on ASCII text: a letter is upper-cased when the
    previous character is not a letter and lower-cased otherwise. *)
Fixpoint title_from (previous_is_cased : bool) (s : string) : string :=
  match s with
  | EmptyString => EmptyString
  | String c s' =>
      if is_upper c || is_lower c
      then String (if previous_is_cased then to_lower c else to_upper c)
                  (title_from true s')
      else String c (title_from false s')
  end.
Definition title (s : string) : string := title_from false s.

(** [sorted(items, key=lambda x: x[1], reverse=True)]: a stable sort,
    largest cost first. *)
Fixpoint insert_by_cost (x : string * PyDecimal.t) (l : list (string * PyDecimal.t))
  : list (string * PyDecimal.t) :=
  match l with
  | [] => [x]
  | y :: l' => if (snd y >? snd x)%D then y :: insert_by_cost x l' else x :: l
  end.
Definition sorted_by_cost (items : list (string * PyDecimal.t))
  : list (string * PyDecimal.t) :=
  fold_right insert_by_cost [] items.

(** Line 262: [(cost / total_cost * 100) if total_cost > 0 else 0]. *)
Definition percentage {S} (cost total_cost : PyDecimal.t) : M S number :=
  if (total_cost >? Decimal 0)%D
  then match PyDecimal.div cost total_cost with
       | Some q => ret (NDecimal (PyDecimal.mul q (Decimal 100)))
       | None => raise DivisionByZero
       end
  else ret (NInt 0).

(** Lines 258-263: the "Top Services by Cost" lines, appended to the
    local [report]. *)
Definition top_services (service_costs : dict PyDecimal.t)
    (total_cost : PyDecimal.t) : M string unit :=
  let sorted_services := sorted_by_cost service_costs in
  for_each (firstn 5 sorted_services) (fun '(service, cost) =>
    p <- percentage cost total_cost ;;
    w <- ask ;;
    modify (fun report =>
      report ++ "  • " ++ service ++ ": $" ++ float_2f w cost
             ++ " (" ++ format_1f p ++ "%)" ++ nl)).

(** [enumerate(xs, start)]. *)
Fixpoint enumerate {A} (xs : list A) (start : Z) : list (Z * A) :=
  match xs with
  | [] => []
  | x :: xs' => (start, x) :: enumerate xs' (start + 1)
  end.

(** Lines 265-276. *)
Definition recommendations_section (recommendations : list recommendation)
  : M string unit :=
  match recommendations with
  | _ :: _ =>
      modify (fun report =>
        report ++ nl ++ "OPTIMIZATION RECOMMENDATIONS ("
               ++ str_of_Z (Z.of_nat (List.length recommendations))
               ++ " found):" ++ nl) ;;
      for_each (enumerate recommendations 1) (fun '(i, rec) =>
        type <- dict_getitem rec "type" ;;
        modify (fun report =>
          report ++ nl ++ str_of_Z i ++ ". "
                 ++ title (replace_underscores type) ++ nl) ;;
        when (dict_mem rec "resource") (
          resource <- dict_getitem rec "resource" ;;
          modify (fun report => report ++ "   Resource: " ++ resource ++ nl)) ;;
        text <- dict_getitem rec "recommendation" ;;
        modify (fun report => report ++ "   Recommendation: " ++ text ++ nl) ;;
        when (dict_mem rec "potential_savings") (
          savings <- dict_getitem rec "potential_savings" ;;
          modify (fun report =>
            report ++ "   Potential Savings: " ++ savings ++ nl)))
  | [] =>
      modify (fun report =>
        report ++ nl ++ "No optimization recommendations found at this time." ++ nl)
  end.

Definition generate_cost_report {S} (service_costs : dict PyDecimal.t)
    (total_cost : PyDecimal.t) (recommendations : list recommendation)
  : M S string :=
  frame EmptyString (
    project_name <- load_global "project_name" ;;
    environment <- load_global "environment" ;;
    w <- ask ;;
    modify (fun _ =>
      nl ++ "Cost Optimization Report for $" ++ project_name
         ++ " ($" ++ environment ++ ")" ++ nl
         ++ "Generated: " ++ now_strftime w ++ nl
         ++ nl
         ++ "COST SUMMARY (Last 30 days):" ++ nl
         ++ "Total Cost: $" ++ float_2f w total_cost ++ nl
         ++ nl
         ++ "Top Services by Cost:" ++ nl) ;;
    top_services service_costs total_cost ;;
    recommendations_section recommendations ;;
    modify (fun report =>
      report ++ nl ++ "Next analysis scheduled in 7 days." ++ nl) ;;
    get).

(** *** [send_notification] (lines 282-295) *)

Definition send_notification {S} (sns_client : sns_client_t)
    (topic_arn report project_name environment : string) : M S unit :=
  frame tt (
    let subject :=
      "Cost Optimization Report - " ++ project_name ++ " (" ++ environment ++ ")" in
    try_except (
      publish sns_client topic_arn subject report ;;
      print "Cost optimization report sent successfully")
      (fun e => print ("Error sending notification: " ++ str_exn e))).

(** *** [handler] (lines 7-92) *)

(** Lines 51-59: accumulate the cost per service and the grand total. *)
Definition aggregate_costs (cost_response : cost_response)
  : dict PyDecimal.t * PyDecimal.t :=
  fold_left (fun acc result =>
    fold_left (fun '(service_costs, total_cost) '(service, cost) =>
      (dict_set service_costs service
         (dict_get service_costs service (Decimal 0) + cost)%D,
       (total_cost + cost)%D))
      result acc)
    cost_response ([], Decimal 0).

(** Lines 62-67: the four analyzers, in the order of the source. *)
Definition run_analyzers (ec2_client : ec2_client_t) (rds_client : rds_client_t)
    (service_costs : dict PyDecimal.t) : M (list recommendation) unit :=
  (rs <- analyze_ec2_costs ec2_client service_costs ;; extend rs) ;;
  (rs <- analyze_rds_costs rds_client service_costs ;; extend rs) ;;
  (rs <- analyze_storage_costs service_costs ;; extend rs) ;;
  (rs <- check_unused_resources ec2_client rds_client ;; extend rs).

Definition handler {S} (event context : unit) : M S response :=
  frame [] (
    w <- ask ;;
    let ce_client := boto3_ce w in
    let ec2_client := boto3_ec2 w in
    let rds_client := boto3_rds w in
    let sns_client := boto3_sns w in
    project_name <- os_environ "PROJECT_NAME" ;;
    environment <- os_environ "ENVIRONMENT" ;;
    sns_topic_arn <- os_environ "SNS_TOPIC_ARN" ;;
    try_except (
      let end_date := today w in
      let start_date := end_date - 30 in
      cost_response <- get_cost_and_usage ce_client
        {| TimePeriod_Start := start_date;
           TimePeriod_End := end_date;
           Granularity := "MONTHLY";
           Metrics := ["BlendedCost"];
           GroupBy := [("DIMENSION", "SERVICE")];
           Filter_Tags_Key := "Project";
           Filter_Tags_Values := [project_name] |} ;;
      let '(service_costs, total_cost) := aggregate_costs cost_response in
      run_analyzers ec2_client rds_client service_costs ;;
      recommendations <- get ;;
      report <- generate_cost_report service_costs total_cost recommendations ;;
      when (match recommendations with [] => false | _ => true end) (
        send_notification sns_client sns_topic_arn report project_name environment) ;;
      ret {| statusCode := 200;
             body := [ ("message", JString "Cost optimization analysis completed");
                       ("total_cost", JFloat total_cost);
                       ("recommendations_count",
                        JInt (Z.of_nat (List.length recommendations))) ] |})
      (fun e =>
        print ("Error in cost optimization analysis: " ++ str_exn e) ;;
        ret {| statusCode := 500;
               body := [ ("error", JString (str_exn e)) ] |})).

(** One invocation of the Lambda in world [w]. *)
Definition invoke (w : World) : run unit response := handler tt tt w tt.

(** * Vocabulary of the properties *)

(** ** Loops that only append

    The body of every inventory loop either completes, having appended
    some recommendations to the local list, or raises (a missing key)
    before it has appended anything.  [step] gives that behaviour as a
    value; [scan] is the loop over it. *)

Definition appends {A} (body : A -> M (list recommendation) unit)
    (step : World -> A -> result (list recommendation)) : Prop :=
  forall x w s,
    body x w s = match step w x with
                 | Ok rs => Run (Ok tt) (s ++ rs)%list []
                 | Raise e => Run (Raise e) s []
                 end.

Fixpoint scan {A} (step : A -> result (list recommendation)) (xs : list A)
  : list recommendation * option exn :=
  match xs with
  | [] => ([], None)
  | x :: xs' =>
      match step x with
      | Ok rs => let '(rest, err) := scan step xs' in ((rs ++ rest)%list, err)
      | Raise e => ([], Some e)
      end
  end.

(** The items a loop processes before the first one that raises. *)
Fixpoint processed {A} (step : A -> result (list recommendation)) (xs : list A)
  : list A :=
  match xs with
  | [] => []
  | x :: xs' =>
      match step x with
      | Ok _ => x :: processed step xs'
      | Raise _ => []
      end
  end.

Definition emitted {A} (step : A -> result (list recommendation)) (x : A)
  : list recommendation :=
  match step x with Ok rs => rs | Raise _ => [] end.

(** The loop bodies as values. *)

Definition is_large_class (instance_type : string) : bool :=
  startswith instance_type "m5.large" || startswith instance_type "m5.xlarge".

Definition not_spot (i : instance) : bool :=
  match SpotInstanceRequestId i with None => true | Some _ => false end.

Definition ec2_step (i : instance) : result (list recommendation) :=
  match InstanceType i with
  | None => Raise (KeyError "InstanceType")
  | Some instance_type =>
      if is_large_class instance_type || not_spot i then
        match InstanceId i with
        | None => Raise (KeyError "InstanceId")
        | Some resource =>
            Ok ((if is_large_class instance_type
                 then [EC2_RIGHTSIZING resource instance_type] else [])
                ++ (if not_spot i then [EC2_SPOT_INSTANCES resource] else []))%list
        end
      else Ok []
  end.

Definition has_size_token (db_class : string) : bool :=
  contains "large" db_class || contains "xlarge" db_class.

Definition retention_of (db : db_instance) : Z :=
  match BackupRetentionPeriod db with Some n => n | None => 0 end.

Definition rds_step (db : db_instance) : result (list recommendation) :=
  match DBInstanceClass db with
  | None => Raise (KeyError "DBInstanceClass")
  | Some db_class =>
      if has_size_token db_class || (retention_of db >? 7) then
        match DBInstanceIdentifier db with
        | None => Raise (KeyError "DBInstanceIdentifier")
        | Some resource =>
            Ok ((if has_size_token db_class
                 then [RDS_RIGHTSIZING resource db_class] else [])
                ++ (if retention_of db >? 7
                    then [RDS_BACKUP_OPTIMIZATION resource (retention_of db)]
                    else []))%list
        end
      else Ok []
  end.

Definition stopped_step (i : instance) : result (list recommendation) :=
  match InstanceId i with
  | None => Raise (KeyError "InstanceId")
  | Some resource => Ok [UNUSED_EC2_INSTANCE resource]
  end.

Definition volume_step (w : World) (v : volume) : result (list recommendation) :=
  match VolumeId v with
  | None => Raise (KeyError "VolumeId")
  | Some resource =>
      match Size v with
      | None => Raise (KeyError "Size")
      | Some size => Ok [UNATTACHED_EBS_VOLUME w resource size]
      end
  end.

(** The [Filters] arguments of the three inventory queries. *)
Definition running_filters : list filter :=
  [ {| Name := "instance-state-name"; Values := ["running"] |};
    {| Name := "tag:Project"; Values := ["${project_name}"] |} ].
Definition stopped_filters : list filter :=
  [ {| Name := "instance-state-name"; Values := ["stopped"] |};
    {| Name := "tag:Project"; Values := ["${project_name}"] |} ].
Definition volume_filters : list filter :=
  [ {| Name := "status"; Values := ["available"] |};
    {| Name := "tag:Project"; Values := ["${project_name}"] |} ].

Definition ec2_cost_of (service_costs : dict PyDecimal.t) : PyDecimal.t :=
  dict_get service_costs "Amazon Elastic Compute Cloud - Compute" (Decimal 0).
Definition rds_cost_of (service_costs : dict PyDecimal.t) : PyDecimal.t :=
  dict_get service_costs "Amazon Relational Database Service" (Decimal 0).

(** The trace an analyzer leaves after its loop: nothing more, or the
    line printed by its [except] clause. *)
Definition logged (prefix : string) (err : option exn) : list event :=
  match err with
  | None => []
  | Some e => [Print (prefix ++ str_exn e)]
  end.

(** What a call returned, for a function that returns a list. *)
Definition returned {S} (r : run S (list recommendation)) : list recommendation :=
  match outcome r with Ok rs => rs | Raise _ => [] end.

(** The request [handler] sends to the billing service (lines 29-48). *)
Definition billing_request (w : World) (project_name : string) : cost_request :=
  {| TimePeriod_Start := today w - 30;
     TimePeriod_End := today w;
     Granularity := "MONTHLY";
     Metrics := ["BlendedCost"];
     GroupBy := [("DIMENSION", "SERVICE")];
     Filter_Tags_Key := "Project";
     Filter_Tags_Values := [project_name] |}.

(** The 500 response of the [except] clause (lines 87-92). *)
Definition error_response (e : exn) : response :=
  {| statusCode := 500; body := [("error", JString (str_exn e))] |}.

(** The four analyzer calls of one run, each in a frame of its own. *)
Definition ec2_call (w : World) (service_costs : dict PyDecimal.t) :=
  analyze_ec2_costs (S:=unit) (boto3_ec2 w) service_costs w tt.
Definition rds_call (w : World) (service_costs : dict PyDecimal.t) :=
  analyze_rds_costs (S:=unit) (boto3_rds w) service_costs w tt.
Definition storage_call (w : World) (service_costs : dict PyDecimal.t) :=
  analyze_storage_costs (S:=unit) service_costs w tt.
Definition unused_call (w : World) :=
  check_unused_resources (S:=unit) (boto3_ec2 w) (boto3_rds w) w tt.

(** ** Example worlds *)

(** A deployment with the three configuration values set; the clients
    are supplied by each scenario.  A decimal rendering stands in for the
    floating-point one. *)
Definition example_world (ce : ce_client_t) (ec2 : ec2_client_t)
    (rds : rds_client_t) (sns : sns_client_t) : World :=
  {| environ := [ ("PROJECT_NAME", "apex-coder");
                  ("ENVIRONMENT", "production");
                  ("SNS_TOPIC_ARN", "arn:aws:sns:us-east-1:123456789012:cost") ];
     today := 739000;
     now_strftime := "2024-04-29 06:00:00";
     boto3_ce := ce;
     boto3_ec2 := ec2;
     boto3_rds := rds;
     boto3_sns := sns;
     float_2f := PyDecimal.format_f 2;
     volume_savings_2f :=
       fun size => PyDecimal.format_f 2 (PyDecimal.Dec (size <? 0) (Z.abs size) (-1)) |}.

Definition sns_ok : sns_client_t := {| sns_publish := fun _ _ _ => Ok tt |}.
Definition rds_empty : rds_client_t := {| rds_describe_db_instances := Ok [] |}.
Definition ec2_empty : ec2_client_t :=
  {| ec2_describe_instances := fun _ => Ok [];
     ec2_describe_volumes := fun _ => Ok [] |}.

(** Nothing is billed and nothing is deployed. *)
Definition idle_world : World :=
  example_world {| ce_get_cost_and_usage := fun _ => Ok [] |}
                ec2_empty rds_empty sns_ok.

(** The billing service is down. *)
Definition billing_outage_world : World :=
  example_world
    {| ce_get_cost_and_usage := fun _ => Raise (ServiceError "AccessDeniedException") |}
    ec2_empty rds_empty sns_ok.

(** One stopped instance is left over. *)
Definition stopped_instance : instance :=
  {| InstanceId := Some "i-0stopped";
     InstanceType := Some "t3.micro";
     SpotInstanceRequestId := None |}.

Definition leftover_world : World :=
  example_world
    {| ce_get_cost_and_usage := fun _ => Ok [] |}
    {| ec2_describe_instances := fun _ => Ok [[stopped_instance]];
       ec2_describe_volumes := fun _ => Ok [] |}
    rds_empty sns_ok.

(** The compute bill is 150 and the inventory is empty. *)
Definition compute_world : World :=
  example_world
    {| ce_get_cost_and_usage := fun _ =>
         Ok [[("Amazon Elastic Compute Cloud - Compute", Decimal 150)]] |}
    ec2_empty rds_empty sns_ok.

(** The stopped instance is listed, but the volume query fails. *)
Definition volume_outage_world : World :=
  example_world
    {| ce_get_cost_and_usage := fun _ => Ok [] |}
    {| ec2_describe_instances := fun _ => Ok [[stopped_instance]];
       ec2_describe_volumes := fun _ => Raise (ServiceError "RequestLimitExceeded") |}
    rds_empty sns_ok.

(** Both bills are above their thresholds and both inventories fail. *)
Definition billed_costs : dict PyDecimal.t :=
  [ ("Amazon Elastic Compute Cloud - Compute", Decimal 150);
    ("Amazon Relational Database Service", Decimal 60) ].

Definition inventory_outage_world : World :=
  example_world
    {| ce_get_cost_and_usage := fun _ => Ok [billed_costs] |}
    {| ec2_describe_instances := fun _ => Raise (ServiceError "UnauthorizedOperation");
       ec2_describe_volumes := fun _ => Ok [] |}
    {| rds_describe_db_instances := Raise (ServiceError "AccessDenied") |}
    sns_ok.

(** A fleet of running instances and two databases. *)
Definition large_on_demand : instance :=
  {| InstanceId := Some "i-0large";
     InstanceType := Some "m5.xlarge";
     SpotInstanceRequestId := None |}.
Definition small_spot : instance :=
  {| InstanceId := Some "i-0small";
     InstanceType := Some "t3.micro";
     SpotInstanceRequestId := Some "sir-0001" |}.
Definition week_retention : db_instance :=
  {| DBInstanceIdentifier := Some "db-week";
     DBInstanceClass := Some "db.t3.micro";
     BackupRetentionPeriod := Some 7 |}.
Definition eight_day_retention : db_instance :=
  {| DBInstanceIdentifier := Some "db-eight";
     DBInstanceClass := Some "db.t3.micro";
     BackupRetentionPeriod := Some 8 |}.
Definition no_retention_field : db_instance :=
  {| DBInstanceIdentifier := Some "db-bare";
     DBInstanceClass := Some "db.m5.large";
     BackupRetentionPeriod := None |}.

Definition fleet_world : World :=
  example_world
    {| ce_get_cost_and_usage := fun _ => Ok [billed_costs] |}
    {| ec2_describe_instances := fun Filters =>
         match Filters with
         | {| Values := ["running"] |} :: _ => Ok [[large_on_demand]; [small_spot]]
         | _ => Ok [[stopped_instance]]
         end;
       ec2_describe_volumes := fun _ =>
         Ok [ {| VolumeId := Some "vol-0free"; Size := Some 50 |} ] |}
    {| rds_describe_db_instances :=
         Ok [week_retention; eight_day_retention; no_retention_field] |}
    sns_ok.

(** The compute bill is exactly at the threshold. *)
Definition threshold_costs : dict PyDecimal.t :=
  [ ("Amazon Elastic Compute Cloud - Compute", Decimal 100) ].

(** [rec['type'] == 'RDS_BACKUP_OPTIMIZATION']. *)
Definition is_backup_recommendation (r : recommendation) : bool :=
  match dict_lookup r "type" with
  | Some type => String.eqb type "RDS_BACKUP_OPTIMIZATION"
  | None => false
  end.

(** ** The percentage of a summary line, as a value *)

(** Line 262 without the monad: the division cannot fail there. *)
Definition percentage_of (cost total_cost : PyDecimal.t) : number :=
  if (total_cost >? Decimal 0)%D
  then match PyDecimal.div cost total_cost with
       | Some q => NDecimal (PyDecimal.mul q (Decimal 100))
       | None => NInt 0
       end
  else NInt 0.

(** Line 263: one line of the summary. *)
Definition service_line (w : World) (total_cost : PyDecimal.t)
    (item : string * PyDecimal.t) : string :=
  "  • " ++ fst item ++ ": $" ++ float_2f w (snd item)
         ++ " (" ++ format_1f (percentage_of (snd item) total_cost) ++ "%)" ++ nl.

Definition join (lines : list string) : string :=
  fold_right String.append EmptyString lines.




(** Whether a trace contains a call to the notifier's [publish]. *)
Definition is_publish (ev : event) : bool :=
  match ev with Publish _ _ _ => true | _ => false end.

(** An inventory query whose filters are one of the three fixed lists. *)
Definition fixed_query (ev : event) : Prop :=
  match ev with
  | DescribeInstances Filters =>
      Filters = running_filters \/ Filters = stopped_filters
  | DescribeVolumes Filters => Filters = volume_filters
  | _ => True
  end.

(** ** The aggregation, as sums *)

(** One group of the billing response folded into the accumulator
    (lines 56-59). *)
Definition aggregate_step
  : dict PyDecimal.t * PyDecimal.t -> string * PyDecimal.t
    -> dict PyDecimal.t * PyDecimal.t :=
  fun '(service_costs, total_cost) '(service, cost) =>
    (dict_set service_costs service
       (dict_get service_costs service (Decimal 0) + cost)%D,
     (total_cost + cost)%D).

(** The amounts billed to one service, in response order. *)
Definition amounts_of (service : string) (groups : list (string * PyDecimal.t))
  : list PyDecimal.t :=
  map snd (List.filter (fun g => String.eqb (fst g) service) groups).

(** [((Decimal('0') + x1) + x2) + ...]. *)
Definition decimal_sum (xs : list PyDecimal.t) : PyDecimal.t :=
  fold_left PyDecimal.add xs (Decimal 0).

(** The distinct names of a list, each at its first place. *)
Definition first_occurrences (names : list string) : list string :=
  fold_left (fun seen name =>
               if existsb (String.eqb name) seen then seen
               else (seen ++ [name])%list)
            names [].

(** ** Order of the summary *)

(** Two costs of equal value: neither is greater than the other. *)
Definition same_cost (a b : PyDecimal.t) : bool :=
  negb (a >? b)%D && negb (b >? a)%D.

(** No entry is followed by one of strictly greater cost. *)
Definition descending (items : list (string * PyDecimal.t)) : Prop :=
  StronglySorted (fun x y => (snd y >? snd x)%D = false) items.

(** ** Example bills *)

(** Object storage billed exactly 20.00, block storage 30.01, the
    database exactly 50.000. *)
Definition boundary_costs : dict PyDecimal.t :=
  [ ("Amazon Simple Storage Service", PyDecimal.Dec false 2000 (-2));
    ("Amazon Elastic Block Store", PyDecimal.Dec false 3001 (-2));
    ("Amazon Relational Database Service", PyDecimal.Dec false 50000 (-3)) ].

(** ** Example inventories with a damaged record *)

Definition untyped_instance : instance :=
  {| InstanceId := Some "i-0untyped";
     InstanceType := None;
     SpotInstanceRequestId := None |}.

Definition anonymous_instance : instance :=
  {| InstanceId := None;
     InstanceType := Some "t3.micro";
     SpotInstanceRequestId := None |}.

(** The running fleet holds a record without its type, and the stopped
    one a record without its identifier. *)
Definition damaged_world : World :=
  example_world
    {| ce_get_cost_and_usage := fun _ => Ok [billed_costs] |}
    {| ec2_describe_instances := fun Filters =>
         match Filters with
         | {| Values := ["running"] |} :: _ =>
             Ok [[large_on_demand; untyped_instance]; [small_spot]]
         | _ => Ok [[stopped_instance; anonymous_instance]]
         end;
       ec2_describe_volumes := fun _ =>
         Ok [ {| VolumeId := Some "vol-0free"; Size := Some 50 |} ] |}
    rds_empty sns_ok.

(** ** The recommendation section of the report, as text *)

(** A record the report can print: it has the two keys lines 269 and
    272 read unconditionally. *)
Definition printable (rec : recommendation) : bool :=
  dict_mem rec "type" && dict_mem rec "recommendation".

(** The numbered block of one recommendation (lines 269-274). *)
Definition entry_text (item : Z * recommendation) : string :=
  let '(i, rec) := item in
  nl ++ str_of_Z i ++ ". "
     ++ title (replace_underscores (dict_get rec "type" EmptyString)) ++ nl
     ++ match dict_lookup rec "resource" with
        | Some resource => "   Resource: " ++ resource ++ nl
        | None => EmptyString
        end
     ++ "   Recommendation: " ++ dict_get rec "recommendation" EmptyString ++ nl
     ++ match dict_lookup rec "potential_savings" with
        | Some savings => "   Potential Savings: " ++ savings ++ nl
        | None => EmptyString
        end.

(** The body of the loop of lines 268-274, under a name. *)
Definition entry_block (item : Z * recommendation) : M string unit :=
  let '(i, rec) := item in
  type <- dict_getitem rec "type" ;;
  modify (fun report =>
    report ++ nl ++ str_of_Z i ++ ". "
           ++ title (replace_underscores type) ++ nl) ;;
  when (dict_mem rec "resource") (
    resource <- dict_getitem rec "resource" ;;
    modify (fun report => report ++ "   Resource: " ++ resource ++ nl)) ;;
  text <- dict_getitem rec "recommendation" ;;
  modify (fun report => report ++ "   Recommendation: " ++ text ++ nl) ;;
  when (dict_mem rec "potential_savings") (
    savings <- dict_getitem rec "potential_savings" ;;
    modify (fun report =>
      report ++ "   Potential Savings: " ++ savings ++ nl)).

(** The heading of a non-empty section (line 266). *)
Definition section_heading (recommendations : list recommendation) : string :=
  nl ++ "OPTIMIZATION RECOMMENDATIONS ("
     ++ str_of_Z (Z.of_nat (List.length recommendations)) ++ " found):" ++ nl.

(** A record with the three keys every analyzer writes. *)
Definition complete_entry (rec : recommendation) : bool :=
  printable rec && dict_mem rec "potential_savings".

(** A record that names its resource but carries no type. *)
Definition untyped_entry : recommendation :=
  [ ("resource", "i-0large");
    ("recommendation", "Consider using Spot instances for non-critical workloads") ].

(** ** Counting the calls of a run *)

Definition is_billing_call (ev : event) : bool :=
  match ev with GetCostAndUsage _ => true | _ => false end.
Definition is_instances_query (ev : event) : bool :=
  match ev with DescribeInstances _ => true | _ => false end.
Definition is_volumes_query (ev : event) : bool :=
  match ev with DescribeVolumes _ => true | _ => false end.
Definition is_databases_query (ev : event) : bool :=
  match ev with DescribeDBInstances => true | _ => false end.

Definition count_calls (p : event -> bool) (t : list event) : nat :=
  List.length (List.filter p t).

(** A trace with no billing call and no publish, and at most [i]
    instance queries, [v] volume queries and [d] database queries. *)
Definition calls_at_most (i v d : nat) (t : list event) : Prop :=
  count_calls is_billing_call t = 0%nat
  /\ count_calls is_publish t = 0%nat
  /\ (count_calls is_instances_query t <= i)%nat
  /\ (count_calls is_volumes_query t <= v)%nat
  /\ (count_calls is_databases_query t <= d)%nat.

(** ** Amounts on one scale *)

(** A non-negative amount with exponent [e]. *)
Definition on_scale (e : Z) (d : PyDecimal.t) : Prop :=
  PyDecimal.d_sign d = false /\ PyDecimal.d_exp d = e /\ 0 <= PyDecimal.d_int d.

(** The sum of the coefficients of a list of amounts. *)
Definition coefficient_sum (xs : list PyDecimal.t) : Z :=
  fold_right Z.add 0 (map PyDecimal.d_int xs).

(** Two buckets billed in hundredths. *)
Definition cents_response : cost_response :=
  [ [ ("Amazon Simple Storage Service", PyDecimal.Dec false 1250 (-2));
      ("Amazon Elastic Block Store", PyDecimal.Dec false 300 (-2)) ];
    [ ("Amazon Simple Storage Service", PyDecimal.Dec false 875 (-2)) ] ].

(** * Properties *)

Ltac run_unfold :=
  cbv beta iota zeta delta
    [bind ret raise try_except get modify ask emit lift frame when print
     getitem dict_getitem append extend outcome locals trace];
  cbn [app].

Lemma for_each_scan {A} (body : A -> M (list recommendation) unit) step :
  appends body step ->
  forall xs w s,
    for_each xs body w s =
    Run (match snd (scan (step w) xs) with None => Ok tt | Some e => Raise e end)
        (s ++ fst (scan (step w) xs))%list [].
Proof.
  intros Hb xs w. induction xs as [|x xs IH]; intros s; simpl.
  - unfold ret. now rewrite app_nil_r.
  - unfold bind. rewrite Hb. destruct (step w x) as [rs|e]; simpl.
    + rewrite IH. destruct (scan (step w) xs) as [rest err]; simpl.
      now rewrite app_assoc.
    + now rewrite app_nil_r.
Qed.

Lemma for_each_app {S A} (body : A -> M S unit) (xs ys : list A) w s :
  for_each (xs ++ ys) body w s = (for_each xs body ;; for_each ys body) w s.
Proof.
  revert s. induction xs as [|x xs IH]; intros s; simpl.
  - unfold bind, ret. simpl. now destruct (for_each ys body w s).
  - unfold bind in *. destruct (body x w s) as [[[]|e] s1 t1]; [|reflexivity].
    rewrite IH. destruct (for_each xs body w s1) as [[[]|e] s2 t2]; simpl.
    + now rewrite app_assoc.
    + reflexivity.
Qed.

Lemma for_each_concat {S A} (body : A -> M S unit) (xss : list (list A)) w s :
  for_each xss (fun xs => for_each xs body) w s = for_each (List.concat xss) body w s.
Proof.
  revert s. induction xss as [|xs xss IH]; intros s; simpl; [reflexivity|].
  rewrite for_each_app. unfold bind.
  destruct (for_each xs body w s) as [[[]|e] s1 t1]; [|reflexivity].
  now rewrite IH.
Qed.

Lemma scan_processed {A} (step : A -> result (list recommendation)) xs :
  fst (scan step xs) = flat_map (emitted step) (processed step xs).
Proof.
  induction xs as [|x xs IH]; simpl; [reflexivity|].
  destruct (step x) as [rs|e] eqn:E; simpl; [|reflexivity].
  destruct (scan step xs) as [rest err]; simpl in *.
  unfold emitted at 1. now rewrite E, IH.
Qed.

Lemma scan_all_ok {A} (step : A -> result (list recommendation)) xs :
  Forall (fun x => exists rs, step x = Ok rs) xs ->
  scan step xs = (flat_map (emitted step) xs, None).
Proof.
  induction 1 as [|x xs [rs Hx] _ IH]; simpl; [reflexivity|].
  unfold emitted at 1. now rewrite Hx, IH.
Qed.

Lemma ec2_instance_checks_appends : appends ec2_instance_checks (fun _ => ec2_step).
Proof.
  intros [id ty spot] w s.
  unfold ec2_instance_checks, ec2_step, is_large_class, not_spot.
  cbn [InstanceType InstanceId SpotInstanceRequestId].
  destruct ty as [ty|]; [|reflexivity].
  run_unfold.
  destruct (startswith ty "m5.large" || startswith ty "m5.xlarge"), spot, id;
    run_unfold; cbn [orb app]; rewrite ?app_nil_r, <- ?app_assoc; reflexivity.
Qed.

Lemma rds_instance_checks_appends : appends rds_instance_checks (fun _ => rds_step).
Proof.
  intros [id cls ret_] w s.
  unfold rds_instance_checks, rds_step, has_size_token, retention_of.
  cbn [DBInstanceIdentifier DBInstanceClass BackupRetentionPeriod].
  destruct cls as [cls|]; [|reflexivity].
  run_unfold.
  destruct (contains "large" cls || contains "xlarge" cls),
           (match ret_ with Some n => n | None => 0 end >? 7), id;
    run_unfold; cbn [orb app]; rewrite ?app_nil_r, <- ?app_assoc; reflexivity.
Qed.

Lemma stopped_instance_entry_appends :
  appends stopped_instance_entry (fun _ => stopped_step).
Proof.
  intros [id ty spot] w s. unfold stopped_instance_entry, stopped_step.
  cbn [InstanceId]. destruct id; reflexivity.
Qed.

Lemma volume_entry_appends : appends volume_entry volume_step.
Proof.
  intros [id size] w s. unfold volume_entry, volume_step.
  cbn [VolumeId Size]. destruct id, size; reflexivity.
Qed.

(** ** The analyzers in closed form *)

Lemma analyze_ec2_costs_run {S} ec2_client service_costs w (s : S) :
  analyze_ec2_costs ec2_client service_costs w s =
  if (ec2_cost_of service_costs >? Decimal 100)%D then
    match ec2_describe_instances ec2_client running_filters with
    | Raise e =>
        Run (Ok []) s
            [DescribeInstances running_filters;
             Print ("Error analyzing EC2 costs: " ++ str_exn e)]
    | Ok reservations =>
        let r := scan ec2_step (List.concat reservations) in
        Run (Ok (fst r)) s
            (DescribeInstances running_filters
               :: logged "Error analyzing EC2 costs: " (snd r))
    end
  else Run (Ok []) s [].
Proof.
  unfold analyze_ec2_costs, ec2_cost_of, describe_instances, running_filters.
  destruct (_ >? _)%D; [|reflexivity].
  run_unfold.
  destruct (ec2_describe_instances ec2_client _) as [reservations|e];
    [|reflexivity].
  rewrite for_each_concat, (for_each_scan _ _ ec2_instance_checks_appends).
  destruct (scan ec2_step (List.concat reservations)) as [recs [e|]];
    reflexivity.
Qed.

Lemma analyze_rds_costs_run {S} rds_client service_costs w (s : S) :
  analyze_rds_costs rds_client service_costs w s =
  if (rds_cost_of service_costs >? Decimal 50)%D then
    match rds_describe_db_instances rds_client with
    | Raise e =>
        Run (Ok []) s
            [DescribeDBInstances; Print ("Error analyzing RDS costs: " ++ str_exn e)]
    | Ok db_instances =>
        let r := scan rds_step db_instances in
        Run (Ok (fst r)) s
            (DescribeDBInstances :: logged "Error analyzing RDS costs: " (snd r))
    end
  else Run (Ok []) s [].
Proof.
  unfold analyze_rds_costs, rds_cost_of, describe_db_instances.
  destruct (_ >? _)%D; [|reflexivity].
  run_unfold.
  destruct (rds_describe_db_instances rds_client) as [db_instances|e];
    [|reflexivity].
  rewrite (for_each_scan _ _ rds_instance_checks_appends).
  destruct (scan rds_step db_instances) as [recs [e|]]; reflexivity.
Qed.

Lemma analyze_storage_costs_run {S} service_costs w (s : S) :
  analyze_storage_costs service_costs w s =
  Run (Ok ((if (dict_get service_costs "Amazon Simple Storage Service" (Decimal 0)
                >? Decimal 20)%D
            then [S3_LIFECYCLE_OPTIMIZATION] else [])
           ++ (if (dict_get service_costs "Amazon Elastic Block Store" (Decimal 0)
                   >? Decimal 30)%D
               then [EBS_OPTIMIZATION] else []))%list) s [].
Proof.
  unfold analyze_storage_costs.
  destruct (_ >? _)%D, (_ >? _)%D; reflexivity.
Qed.

Lemma check_unused_resources_run {S} ec2_client rds_client w (s : S) :
  check_unused_resources ec2_client rds_client w s =
  match ec2_describe_instances ec2_client stopped_filters with
  | Raise e =>
      Run (Ok []) s
          [DescribeInstances stopped_filters;
           Print ("Error checking unused resources: " ++ str_exn e)]
  | Ok reservations =>
      let r := scan stopped_step (List.concat reservations) in
      match snd r with
      | Some e =>
          Run (Ok (fst r)) s
              [DescribeInstances stopped_filters;
               Print ("Error checking unused resources: " ++ str_exn e)]
      | None =>
          match ec2_describe_volumes ec2_client volume_filters with
          | Raise e =>
              Run (Ok (fst r)) s
                  [DescribeInstances stopped_filters;
                   DescribeVolumes volume_filters;
                   Print ("Error checking unused resources: " ++ str_exn e)]
          | Ok volumes =>
              let r' := scan (volume_step w) volumes in
              Run (Ok (fst r ++ fst r')%list) s
                  (DescribeInstances stopped_filters
                     :: DescribeVolumes volume_filters
                     :: logged "Error checking unused resources: " (snd r'))
          end
      end
  end.
Proof.
  unfold check_unused_resources, describe_instances, describe_volumes,
         stopped_filters, volume_filters.
  run_unfold.
  destruct (ec2_describe_instances ec2_client _) as [reservations|e];
    [|reflexivity].
  rewrite for_each_concat, (for_each_scan _ _ stopped_instance_entry_appends).
  destruct (scan stopped_step (List.concat reservations)) as [recs [e|]];
    [reflexivity|].
  cbn [fst snd app].
  destruct (ec2_describe_volumes ec2_client _) as [volumes|e]; [|reflexivity].
  rewrite (for_each_scan _ _ volume_entry_appends).
  destruct (scan (volume_step w) volumes) as [recs' [e|]]; reflexivity.
Qed.

(** No analyzer ever raises: its result and its trace do not depend on
    the caller's frame. *)
Lemma analyze_ec2_costs_total {S} ec2_client service_costs w (s : S) :
  analyze_ec2_costs ec2_client service_costs w s =
  Run (Ok (returned (analyze_ec2_costs ec2_client service_costs w tt))) s
      (trace (analyze_ec2_costs ec2_client service_costs w tt)).
Proof.
  rewrite !analyze_ec2_costs_run.
  destruct (_ >? _)%D; [|reflexivity].
  destruct (ec2_describe_instances _ _); reflexivity.
Qed.

Lemma analyze_rds_costs_total {S} rds_client service_costs w (s : S) :
  analyze_rds_costs rds_client service_costs w s =
  Run (Ok (returned (analyze_rds_costs rds_client service_costs w tt))) s
      (trace (analyze_rds_costs rds_client service_costs w tt)).
Proof.
  rewrite !analyze_rds_costs_run.
  destruct (_ >? _)%D; [|reflexivity].
  destruct (rds_describe_db_instances _); reflexivity.
Qed.

Lemma analyze_storage_costs_total {S} service_costs w (s : S) :
  analyze_storage_costs service_costs w s =
  Run (Ok (returned (analyze_storage_costs service_costs w tt))) s
      (trace (analyze_storage_costs service_costs w tt)).
Proof. rewrite !analyze_storage_costs_run. reflexivity. Qed.

Lemma check_unused_resources_total {S} ec2_client rds_client w (s : S) :
  check_unused_resources ec2_client rds_client w s =
  Run (Ok (returned (check_unused_resources ec2_client rds_client w tt))) s
      (trace (check_unused_resources ec2_client rds_client w tt)).
Proof.
  rewrite !check_unused_resources_run.
  destruct (ec2_describe_instances _ _); [|reflexivity].
  cbv zeta. destruct (snd _); [reflexivity|].
  destruct (ec2_describe_volumes _ _); reflexivity.
Qed.

Lemma run_analyzers_run w service_costs recommendations :
  run_analyzers (boto3_ec2 w) (boto3_rds w) service_costs w recommendations =
  Run (Ok tt)
      (recommendations
         ++ returned (ec2_call w service_costs)
         ++ returned (rds_call w service_costs)
         ++ returned (storage_call w service_costs)
         ++ returned (unused_call w))%list
      (trace (ec2_call w service_costs)
         ++ trace (rds_call w service_costs)
         ++ trace (storage_call w service_costs)
         ++ trace (unused_call w))%list.
Proof.
  unfold run_analyzers, ec2_call, rds_call, storage_call, unused_call.
  unfold bind, extend, modify.
  rewrite analyze_ec2_costs_total; cbn [outcome locals trace].
  rewrite analyze_rds_costs_total; cbn [outcome locals trace].
  rewrite analyze_storage_costs_total; cbn [outcome locals trace].
  rewrite check_unused_resources_total; cbn [outcome locals trace].
  rewrite ?app_nil_r, <- ?app_assoc. reflexivity.
Qed.

(** ** The report and the handler *)

Lemma generate_cost_report_raises {S} service_costs total_cost recommendations
    w (s : S) :
  generate_cost_report service_costs total_cost recommendations w s =
  Run (Raise (NameError "project_name")) s [].
Proof. reflexivity. Qed.

Lemma handler_run {S} w (s : S) project_name environment sns_topic_arn :
  dict_lookup (environ w) "PROJECT_NAME" = Some project_name ->
  dict_lookup (environ w) "ENVIRONMENT" = Some environment ->
  dict_lookup (environ w) "SNS_TOPIC_ARN" = Some sns_topic_arn ->
  handler tt tt w s =
  match ce_get_cost_and_usage (boto3_ce w) (billing_request w project_name) with
  | Raise e =>
      Run (Ok (error_response e)) s
          [GetCostAndUsage (billing_request w project_name);
           Print ("Error in cost optimization analysis: " ++ str_exn e)]
  | Ok cost_response =>
      let service_costs := fst (aggregate_costs cost_response) in
      Run (Ok (error_response (NameError "project_name"))) s
          (GetCostAndUsage (billing_request w project_name)
             :: (trace (ec2_call w service_costs)
                   ++ trace (rds_call w service_costs)
                   ++ trace (storage_call w service_costs)
                   ++ trace (unused_call w))
             ++ [Print ("Error in cost optimization analysis: "
                          ++ str_exn (NameError "project_name"))])%list
  end.
Proof.
  intros Hp He Ht.
  unfold handler, os_environ, get_cost_and_usage, billing_request, error_response.
  run_unfold. rewrite Hp, He, Ht. run_unfold.
  destruct (ce_get_cost_and_usage _ _) as [cost_response|e]; [|reflexivity].
  destruct (aggregate_costs cost_response) as [service_costs total_cost].
  rewrite run_analyzers_run. cbn [fst app].
  rewrite !app_nil_r. reflexivity.
Qed.

Lemma logged_no_publish prefix err : existsb is_publish (logged prefix err) = false.
Proof. destruct err; reflexivity. Qed.

Lemma analyzers_do_not_publish w service_costs :
  existsb is_publish
    (trace (ec2_call w service_costs) ++ trace (rds_call w service_costs)
       ++ trace (storage_call w service_costs) ++ trace (unused_call w))%list
  = false.
Proof.
  unfold ec2_call, rds_call, storage_call, unused_call.
  rewrite !existsb_app.
  assert (H1 : existsb is_publish
                 (trace (analyze_ec2_costs (boto3_ec2 w) service_costs w tt))
               = false).
  { rewrite analyze_ec2_costs_run. destruct (_ >? _)%D; [|reflexivity].
    destruct (ec2_describe_instances _ _); [|reflexivity].
    cbn [trace existsb is_publish orb]. apply logged_no_publish. }
  assert (H2 : existsb is_publish
                 (trace (analyze_rds_costs (boto3_rds w) service_costs w tt))
               = false).
  { rewrite analyze_rds_costs_run. destruct (_ >? _)%D; [|reflexivity].
    destruct (rds_describe_db_instances _); [|reflexivity].
    cbn [trace existsb is_publish orb]. apply logged_no_publish. }
  assert (H3 : existsb is_publish
                 (trace (check_unused_resources (boto3_ec2 w) (boto3_rds w) w tt))
               = false).
  { rewrite check_unused_resources_run.
    destruct (ec2_describe_instances _ _); [|reflexivity].
    cbv zeta. destruct (snd _); [reflexivity|].
    destruct (ec2_describe_volumes _ _); [|reflexivity].
    cbn [trace existsb is_publish orb]. apply logged_no_publish. }
  rewrite H1, H2, H3, analyze_storage_costs_run. reflexivity.
Qed.

(** ** The handler, the notifier and the analyzers *)

(** C1 (code defect).  The claim: whenever the billing query succeeds
    the handler answers 200 with a message, the total cost and the
    recommendation count.  The code: [generate_cost_report] reads
    [project_name], which is bound in [handler] only, so the call at
    line 70 raises NameError and the [except] clause answers 500 -- for
    every invocation whose billing query succeeds. *)
Theorem handler_billing_success_answers_500
    w project_name environment sns_topic_arn cost_response :
  dict_lookup (environ w) "PROJECT_NAME" = Some project_name ->
  dict_lookup (environ w) "ENVIRONMENT" = Some environment ->
  dict_lookup (environ w) "SNS_TOPIC_ARN" = Some sns_topic_arn ->
  ce_get_cost_and_usage (boto3_ce w) (billing_request w project_name)
    = Ok cost_response ->
  outcome (invoke w) =
    Ok {| statusCode := 500;
          body := [("error", JString "name 'project_name' is not defined")] |}.
Proof.
  intros Hp He Ht Hb. unfold invoke.
  rewrite (handler_run w tt _ _ _ Hp He Ht), Hb. reflexivity.
Qed.

Lemma handler_billing_success_answers_500_idle :
  outcome (invoke idle_world) =
    Ok {| statusCode := 500;
          body := [("error", JString "name 'project_name' is not defined")] |}.
Proof.
  apply (handler_billing_success_answers_500 idle_world
           "apex-coder" "production"
           "arn:aws:sns:us-east-1:123456789012:cost" []); reflexivity.
Defined.

(** C2.  When the billing query raises, the handler answers 500 with
    the error message in the body, and the whole run consists of the
    billing call and the logged error: no inventory query, no report,
    no notification. *)
Theorem handler_billing_failure
    w project_name environment sns_topic_arn e :
  dict_lookup (environ w) "PROJECT_NAME" = Some project_name ->
  dict_lookup (environ w) "ENVIRONMENT" = Some environment ->
  dict_lookup (environ w) "SNS_TOPIC_ARN" = Some sns_topic_arn ->
  ce_get_cost_and_usage (boto3_ce w) (billing_request w project_name) = Raise e ->
  outcome (invoke w) =
    Ok {| statusCode := 500; body := [("error", JString (str_exn e))] |}
  /\ trace (invoke w) =
       [ GetCostAndUsage (billing_request w project_name);
         Print ("Error in cost optimization analysis: " ++ str_exn e) ].
Proof.
  intros Hp He Ht Hb. unfold invoke.
  rewrite (handler_run w tt _ _ _ Hp He Ht), Hb. split; reflexivity.
Qed.

Lemma handler_billing_failure_outage :
  outcome (invoke billing_outage_world) =
    Ok {| statusCode := 500;
          body := [("error", JString "AccessDeniedException")] |}
  /\ trace (invoke billing_outage_world) =
       [ GetCostAndUsage (billing_request billing_outage_world "apex-coder");
         Print "Error in cost optimization analysis: AccessDeniedException" ].
Proof.
  apply (handler_billing_failure billing_outage_world
           "apex-coder" "production"
           "arn:aws:sns:us-east-1:123456789012:cost"
           (ServiceError "AccessDeniedException")); reflexivity.
Defined.

(** C6 (code defect).  The claim: the notifier runs exactly when the
    combined recommendation list is non-empty.  The code: line 70 raises
    before line 73 is reached (the defect of C1), so no run whose billing
    query succeeds ever publishes, whatever the recommendation list. *)
Theorem notifier_never_reached
    w project_name environment sns_topic_arn cost_response :
  dict_lookup (environ w) "PROJECT_NAME" = Some project_name ->
  dict_lookup (environ w) "ENVIRONMENT" = Some environment ->
  dict_lookup (environ w) "SNS_TOPIC_ARN" = Some sns_topic_arn ->
  ce_get_cost_and_usage (boto3_ce w) (billing_request w project_name)
    = Ok cost_response ->
  existsb is_publish (trace (invoke w)) = false.
Proof.
  intros Hp He Ht Hb. unfold invoke.
  rewrite (handler_run w tt _ _ _ Hp He Ht), Hb.
  cbn [trace existsb is_publish orb].
  rewrite existsb_app, analyzers_do_not_publish. reflexivity.
Qed.

Lemma notifier_never_reached_leftover :
  locals (run_analyzers (boto3_ec2 leftover_world) (boto3_rds leftover_world)
            [] leftover_world [])
    = [UNUSED_EC2_INSTANCE "i-0stopped"]
  /\ existsb is_publish (trace (invoke leftover_world)) = false.
Proof.
  split; [reflexivity|].
  apply (notifier_never_reached leftover_world
           "apex-coder" "production"
           "arn:aws:sns:us-east-1:123456789012:cost" []); reflexivity.
Defined.

(** C9 (code defect).  The claim: every compute inventory query filters
    on the project tag with the configured project identifier.  The
    code: the three queries pass the literal text [${project_name}];
    only the billing query uses the configured value.  With
    PROJECT_NAME set to apex-coder: *)
Theorem inventory_filters_carry_placeholder :
  dict_lookup (environ compute_world) "PROJECT_NAME" = Some "apex-coder"
  /\ trace (invoke compute_world) =
       [ GetCostAndUsage
           {| TimePeriod_Start := 738970;
              TimePeriod_End := 739000;
              Granularity := "MONTHLY";
              Metrics := ["BlendedCost"];
              GroupBy := [("DIMENSION", "SERVICE")];
              Filter_Tags_Key := "Project";
              Filter_Tags_Values := ["apex-coder"] |};
         DescribeInstances
           [ {| Name := "instance-state-name"; Values := ["running"] |};
             {| Name := "tag:Project"; Values := ["${project_name}"] |} ];
         DescribeInstances
           [ {| Name := "instance-state-name"; Values := ["stopped"] |};
             {| Name := "tag:Project"; Values := ["${project_name}"] |} ];
         DescribeVolumes
           [ {| Name := "status"; Values := ["available"] |};
             {| Name := "tag:Project"; Values := ["${project_name}"] |} ];
         Print "Error in cost optimization analysis: name 'project_name' is not defined" ].
Proof. split; reflexivity. Qed.

(** C3, counterexample.  The stopped-instance query succeeds and the
    volume query raises: the unused-resource analyzer returns the
    recommendation it had already appended, not an empty list. *)
Lemma unused_resources_volume_failure_keeps_entries :
  ec2_describe_volumes (boto3_ec2 volume_outage_world) volume_filters
    = Raise (ServiceError "RequestLimitExceeded")
  /\ outcome (unused_call volume_outage_world)
       = Ok [UNUSED_EC2_INSTANCE "i-0stopped"]
  /\ outcome (unused_call volume_outage_world) <> Ok [].
Proof. repeat split; try reflexivity. discriminate. Qed.

(** C3, amended.  A failing inventory query is caught and logged by its
    analyzer, which returns what it had collected before the failure:
    nothing for the compute and database analyzers and for a failing
    stopped-instance query, the stopped-instance entries for a failing
    volume query.  The analyzers never raise, so the run goes on: the
    trace of a run whose billing query succeeds holds the calls of all
    four analyzers. *)
Theorem inventory_failures_are_isolated w service_costs e :
  ((ec2_cost_of service_costs >? Decimal 100)%D = true ->
   ec2_describe_instances (boto3_ec2 w) running_filters = Raise e ->
   ec2_call w service_costs =
     Run (Ok []) tt
         [ DescribeInstances running_filters;
           Print ("Error analyzing EC2 costs: " ++ str_exn e) ])
  /\ ((rds_cost_of service_costs >? Decimal 50)%D = true ->
      rds_describe_db_instances (boto3_rds w) = Raise e ->
      rds_call w service_costs =
        Run (Ok []) tt
            [ DescribeDBInstances;
              Print ("Error analyzing RDS costs: " ++ str_exn e) ])
  /\ (ec2_describe_instances (boto3_ec2 w) stopped_filters = Raise e ->
      unused_call w =
        Run (Ok []) tt
            [ DescribeInstances stopped_filters;
              Print ("Error checking unused resources: " ++ str_exn e) ])
  /\ (forall reservations,
      ec2_describe_instances (boto3_ec2 w) stopped_filters = Ok reservations ->
      Forall (fun i => InstanceId i <> None) (List.concat reservations) ->
      ec2_describe_volumes (boto3_ec2 w) volume_filters = Raise e ->
      unused_call w =
        Run (Ok (flat_map (emitted stopped_step) (List.concat reservations))) tt
            [ DescribeInstances stopped_filters;
              DescribeVolumes volume_filters;
              Print ("Error checking unused resources: " ++ str_exn e) ])
  /\ (forall recommendations,
      outcome (run_analyzers (boto3_ec2 w) (boto3_rds w) service_costs w
                 recommendations) = Ok tt)
  /\ (forall project_name environment sns_topic_arn cost_response,
      dict_lookup (environ w) "PROJECT_NAME" = Some project_name ->
      dict_lookup (environ w) "ENVIRONMENT" = Some environment ->
      dict_lookup (environ w) "SNS_TOPIC_ARN" = Some sns_topic_arn ->
      ce_get_cost_and_usage (boto3_ce w) (billing_request w project_name)
        = Ok cost_response ->
      exists rest,
        trace (invoke w) =
          (GetCostAndUsage (billing_request w project_name)
             :: trace (ec2_call w (fst (aggregate_costs cost_response)))
             ++ trace (rds_call w (fst (aggregate_costs cost_response)))
             ++ trace (storage_call w (fst (aggregate_costs cost_response)))
             ++ trace (unused_call w) ++ rest)%list).
Proof.
  repeat split.
  - intros Hc Hq. unfold ec2_call. rewrite analyze_ec2_costs_run, Hc, Hq.
    reflexivity.
  - intros Hc Hq. unfold rds_call. rewrite analyze_rds_costs_run, Hc, Hq.
    reflexivity.
  - intros Hq. unfold unused_call. rewrite check_unused_resources_run, Hq.
    reflexivity.
  - intros reservations Hq Hids Hv. unfold unused_call.
    rewrite check_unused_resources_run, Hq, Hv.
    rewrite scan_all_ok; [reflexivity|].
    eapply Forall_impl; [|exact Hids].
    intros [id ty spot] Hid. unfold stopped_step. cbn [InstanceId] in *.
    destruct id; [eauto | congruence].
  - intros recommendations. now rewrite run_analyzers_run.
  - intros pn en arn cost_response Hp He Ht Hb. unfold invoke.
    rewrite (handler_run w tt _ _ _ Hp He Ht), Hb. cbn [trace].
    eexists. rewrite <- !app_assoc. reflexivity.
Qed.

Lemma inventory_failures_are_isolated_examples :
  ec2_call inventory_outage_world billed_costs =
    Run (Ok []) tt
        [ DescribeInstances running_filters;
          Print "Error analyzing EC2 costs: UnauthorizedOperation" ]
  /\ rds_call inventory_outage_world billed_costs =
       Run (Ok []) tt
           [ DescribeDBInstances; Print "Error analyzing RDS costs: AccessDenied" ]
  /\ unused_call inventory_outage_world =
       Run (Ok []) tt
           [ DescribeInstances stopped_filters;
             Print "Error checking unused resources: UnauthorizedOperation" ]
  /\ unused_call volume_outage_world =
       Run (Ok [UNUSED_EC2_INSTANCE "i-0stopped"]) tt
           [ DescribeInstances stopped_filters;
             DescribeVolumes volume_filters;
             Print "Error checking unused resources: RequestLimitExceeded" ]
  /\ (exists rest,
        trace (invoke inventory_outage_world) =
          (GetCostAndUsage (billing_request inventory_outage_world "apex-coder")
             :: trace (ec2_call inventory_outage_world billed_costs)
             ++ trace (rds_call inventory_outage_world billed_costs)
             ++ trace (storage_call inventory_outage_world billed_costs)
             ++ trace (unused_call inventory_outage_world) ++ rest)%list).
Proof.
  pose proof (inventory_failures_are_isolated inventory_outage_world
                billed_costs (ServiceError "UnauthorizedOperation"))
    as (Hec2 & _ & Hstopped & _ & _ & Hrun).
  pose proof (inventory_failures_are_isolated inventory_outage_world
                billed_costs (ServiceError "AccessDenied"))
    as (_ & Hrds & _).
  pose proof (inventory_failures_are_isolated volume_outage_world
                billed_costs (ServiceError "RequestLimitExceeded"))
    as (_ & _ & _ & Hvolume & _).
  split; [apply Hec2; reflexivity|].
  split; [apply Hrds; reflexivity|].
  split; [apply Hstopped; reflexivity|].
  split.
  - apply (Hvolume [[stopped_instance]]); [reflexivity| |reflexivity].
    repeat constructor. discriminate.
  - apply (Hrun "apex-coder" "production"
             "arn:aws:sns:us-east-1:123456789012:cost" [billed_costs]);
      reflexivity.
Defined.

Lemma processed_firstn {A} (step : A -> result (list recommendation)) xs :
  exists n, processed step xs = firstn n xs.
Proof.
  induction xs as [|x xs [n IH]]; simpl.
  - now exists 0%nat.
  - destruct (step x).
    + exists (S n). simpl. now rewrite IH.
    + now exists 0%nat.
Qed.

Lemma ec2_step_present i id ty :
  InstanceId i = Some id -> InstanceType i = Some ty ->
  ec2_step i = Ok ((if is_large_class ty then [EC2_RIGHTSIZING id ty] else [])
                   ++ (if not_spot i then [EC2_SPOT_INSTANCES id] else []))%list.
Proof.
  intros Hid Hty. unfold ec2_step. rewrite Hid, Hty.
  destruct (is_large_class ty), (not_spot i); reflexivity.
Qed.

Lemma rds_step_present db id cls :
  DBInstanceIdentifier db = Some id -> DBInstanceClass db = Some cls ->
  rds_step db =
    Ok ((if has_size_token cls then [RDS_RIGHTSIZING id cls] else [])
        ++ (if retention_of db >? 7
            then [RDS_BACKUP_OPTIMIZATION id (retention_of db)] else []))%list.
Proof.
  intros Hid Hcls. unfold rds_step. rewrite Hid, Hcls.
  destruct (has_size_token cls), (retention_of db >? 7); reflexivity.
Qed.

(** C4.  The compute analyzer queries the inventory and checks the
    instances only when the compute cost is strictly above 100.  When it
    does, every running instance contributes, in turn, the result of two
    independent checks: a rightsizing entry when its type is one of the
    two large classes, a spot entry when it has no spot request -- two
    entries for a large on-demand instance, none for a small spot
    instance. *)
Theorem compute_analyzer_checks w service_costs :
  ((ec2_cost_of service_costs >? Decimal 100)%D = false ->
   ec2_call w service_costs = Run (Ok []) tt [])
  /\ (forall reservations,
      (ec2_cost_of service_costs >? Decimal 100)%D = true ->
      ec2_describe_instances (boto3_ec2 w) running_filters = Ok reservations ->
      Forall (fun i => InstanceId i <> None /\ InstanceType i <> None)
             (List.concat reservations) ->
      outcome (ec2_call w service_costs)
        = Ok (flat_map (emitted ec2_step) (List.concat reservations))
      /\ forall i id ty,
           In i (List.concat reservations) ->
           InstanceId i = Some id -> InstanceType i = Some ty ->
           emitted ec2_step i
             = ((if is_large_class ty then [EC2_RIGHTSIZING id ty] else [])
                ++ (if not_spot i then [EC2_SPOT_INSTANCES id] else []))%list
           /\ (is_large_class ty = true -> SpotInstanceRequestId i = None ->
               emitted ec2_step i = [EC2_RIGHTSIZING id ty; EC2_SPOT_INSTANCES id])
           /\ (is_large_class ty = false -> SpotInstanceRequestId i <> None ->
               emitted ec2_step i = [])).
Proof.
  split.
  - intros Hc. unfold ec2_call. now rewrite analyze_ec2_costs_run, Hc.
  - intros reservations Hc Hq Hwf. split.
    + unfold ec2_call. rewrite analyze_ec2_costs_run, Hc, Hq.
      rewrite scan_all_ok; [reflexivity|].
      eapply Forall_impl; [|exact Hwf].
      intros i [Hid Hty].
      destruct (InstanceId i) as [id|] eqn:Eid; [|congruence].
      destruct (InstanceType i) as [ty|] eqn:Ety; [|congruence].
      rewrite (ec2_step_present i id ty Eid Ety). eauto.
    + intros i id ty _ Hid Hty. unfold emitted.
      rewrite (ec2_step_present i id ty Hid Hty). unfold not_spot.
      repeat split.
      * intros Hl Hs. now rewrite Hl, Hs.
      * intros Hl Hs. rewrite Hl.
        destruct (SpotInstanceRequestId i); [reflexivity | congruence].
Qed.

Lemma compute_analyzer_checks_fleet :
  ec2_call fleet_world threshold_costs = Run (Ok []) tt []
  /\ outcome (ec2_call fleet_world billed_costs)
       = Ok [ EC2_RIGHTSIZING "i-0large" "m5.xlarge"; EC2_SPOT_INSTANCES "i-0large" ]
  /\ emitted ec2_step large_on_demand
       = [ EC2_RIGHTSIZING "i-0large" "m5.xlarge"; EC2_SPOT_INSTANCES "i-0large" ]
  /\ emitted ec2_step small_spot = [].
Proof.
  pose proof (compute_analyzer_checks fleet_world threshold_costs) as [Hoff _].
  pose proof (compute_analyzer_checks fleet_world billed_costs) as [_ Hon].
  specialize (Hon [[large_on_demand]; [small_spot]] eq_refl eq_refl).
  destruct Hon as [Hall Hper].
  { repeat constructor; discriminate. }
  split; [apply Hoff; reflexivity|].
  split; [rewrite Hall; reflexivity|].
  split.
  - apply (Hper large_on_demand "i-0large" "m5.xlarge");
      simpl; auto.
  - apply (Hper small_spot "i-0small" "t3.micro");
      simpl; auto; discriminate.
Defined.

(** C5, counterexample.  For a database with a retention of 8 days the
    analyzer returns one backup-retention entry, but the text of that
    recommendation does not contain "8 days": its message is the fixed
    sentence of line 169, and the block the report prints for it (lines
    269-274) does not show the retention either. *)
Lemma backup_recommendation_text_lacks_retention :
  outcome (rds_call fleet_world billed_costs)
    = Ok [ RDS_BACKUP_OPTIMIZATION "db-eight" 8;
           RDS_RIGHTSIZING "db-bare" "db.m5.large" ]
  /\ (exists message,
        dict_lookup (RDS_BACKUP_OPTIMIZATION "db-eight" 8) "recommendation"
          = Some message
        /\ contains "8 days" message = false)
  /\ (exists text,
        recommendations_section [RDS_BACKUP_OPTIMIZATION "db-eight" 8]
                                fleet_world EmptyString
          = Run (Ok tt) text []
        /\ contains "8 days" text = false).
Proof.
  split; [reflexivity|]. split; eexists; split; vm_compute; reflexivity.
Qed.

(** C5, amended.  When the database analyzer runs, every database
    instance contributes its entries in turn; an instance whose
    retention period is exactly 7 days contributes no backup-retention
    entry, and one whose retention period is 8 days contributes exactly
    one.  That entry carries the current retention in a field of its
    own, [current_retention], which reads "8 days"; its recommendation
    message is the fixed sentence of line 169. *)
Theorem database_backup_retention_check w service_costs db_instances :
  (rds_cost_of service_costs >? Decimal 50)%D = true ->
  rds_describe_db_instances (boto3_rds w) = Ok db_instances ->
  Forall (fun db => DBInstanceIdentifier db <> None /\ DBInstanceClass db <> None)
         db_instances ->
  outcome (rds_call w service_costs)
    = Ok (flat_map (emitted rds_step) db_instances)
  /\ forall db,
       In db db_instances ->
       (BackupRetentionPeriod db = Some 7 ->
        List.filter is_backup_recommendation (emitted rds_step db) = [])
       /\ (BackupRetentionPeriod db = Some 8 ->
           exists id r,
             DBInstanceIdentifier db = Some id
             /\ List.filter is_backup_recommendation (emitted rds_step db) = [r]
             /\ r = RDS_BACKUP_OPTIMIZATION id 8
             /\ dict_lookup r "current_retention" = Some "8 days"
             /\ dict_lookup r "recommendation"
                = Some "Consider reducing backup retention period if not required for compliance").
Proof.
  intros Hc Hq Hwf.
  assert (Hstep : forall db, In db db_instances ->
            exists id cls, DBInstanceIdentifier db = Some id
                           /\ DBInstanceClass db = Some cls).
  { intros db Hin. rewrite Forall_forall in Hwf. destruct (Hwf db Hin) as [Hid Hcls].
    destruct (DBInstanceIdentifier db) as [id|]; [|congruence].
    destruct (DBInstanceClass db) as [cls|]; [|congruence]. eauto. }
  split.
  - unfold rds_call. rewrite analyze_rds_costs_run, Hc, Hq.
    rewrite scan_all_ok; [reflexivity|].
    rewrite Forall_forall. intros db Hin.
    destruct (Hstep db Hin) as (id & cls & Hid & Hcls).
    rewrite (rds_step_present db id cls Hid Hcls). eauto.
  - intros db Hin. destruct (Hstep db Hin) as (id & cls & Hid & Hcls).
    unfold emitted. rewrite (rds_step_present db id cls Hid Hcls).
    unfold retention_of. split; intros Hret; rewrite Hret.
    + destruct (has_size_token cls); reflexivity.
    + exists id, (RDS_BACKUP_OPTIMIZATION id 8).
      repeat split; [assumption|].
      destruct (has_size_token cls); reflexivity.
Qed.

Lemma database_backup_retention_check_fleet :
  outcome (rds_call fleet_world billed_costs)
    = Ok [ RDS_BACKUP_OPTIMIZATION "db-eight" 8;
           RDS_RIGHTSIZING "db-bare" "db.m5.large" ]
  /\ List.filter is_backup_recommendation (emitted rds_step week_retention) = []
  /\ exists id r,
       DBInstanceIdentifier eight_day_retention = Some id
       /\ List.filter is_backup_recommendation (emitted rds_step eight_day_retention) = [r]
       /\ r = RDS_BACKUP_OPTIMIZATION id 8
       /\ dict_lookup r "current_retention" = Some "8 days"
       /\ dict_lookup r "recommendation"
          = Some "Consider reducing backup retention period if not required for compliance".
Proof.
  destruct (database_backup_retention_check fleet_world billed_costs
              [week_retention; eight_day_retention; no_retention_field]
              eq_refl eq_refl) as [Hall Hper].
  { repeat constructor; discriminate. }
  split; [rewrite Hall; reflexivity|].
  split.
  - apply (Hper week_retention); simpl; auto.
  - apply (Hper eight_day_retention); simpl; auto.
Defined.

(** C7.  The combined list is the compute, database, storage and
    unused-resource outputs appended in that order.  The compute and the
    database output are the entries of the inventory items taken in the
    order the query returned them (up to the first item the loop stops
    at, all of them when every item carries its keys); so are the two
    parts of the unused-resource output.  Nothing is sorted. *)
Theorem recommendations_in_analyzer_and_inventory_order w service_costs :
  run_analyzers (boto3_ec2 w) (boto3_rds w) service_costs w [] =
    Run (Ok tt)
        (returned (ec2_call w service_costs)
           ++ returned (rds_call w service_costs)
           ++ returned (storage_call w service_costs)
           ++ returned (unused_call w))%list
        (trace (ec2_call w service_costs)
           ++ trace (rds_call w service_costs)
           ++ trace (storage_call w service_costs)
           ++ trace (unused_call w))%list
  /\ (outcome (ec2_call w service_costs)
        = Ok (returned (ec2_call w service_costs))
      /\ outcome (rds_call w service_costs)
           = Ok (returned (rds_call w service_costs))
      /\ outcome (storage_call w service_costs)
           = Ok (returned (storage_call w service_costs))
      /\ outcome (unused_call w) = Ok (returned (unused_call w)))
  /\ (forall reservations,
      (ec2_cost_of service_costs >? Decimal 100)%D = true ->
      ec2_describe_instances (boto3_ec2 w) running_filters = Ok reservations ->
      exists n,
        outcome (ec2_call w service_costs)
          = Ok (flat_map (emitted ec2_step) (firstn n (List.concat reservations)))
        /\ (Forall (fun i => InstanceId i <> None /\ InstanceType i <> None)
                   (List.concat reservations) ->
            firstn n (List.concat reservations) = List.concat reservations))
  /\ (forall db_instances,
      (rds_cost_of service_costs >? Decimal 50)%D = true ->
      rds_describe_db_instances (boto3_rds w) = Ok db_instances ->
      exists n,
        outcome (rds_call w service_costs)
          = Ok (flat_map (emitted rds_step) (firstn n db_instances))
        /\ (Forall (fun db => DBInstanceIdentifier db <> None
                              /\ DBInstanceClass db <> None) db_instances ->
            firstn n db_instances = db_instances))
  /\ (forall reservations volumes,
      ec2_describe_instances (boto3_ec2 w) stopped_filters = Ok reservations ->
      ec2_describe_volumes (boto3_ec2 w) volume_filters = Ok volumes ->
      Forall (fun i => InstanceId i <> None) (List.concat reservations) ->
      exists n,
        outcome (unused_call w)
          = Ok (flat_map (emitted stopped_step) (List.concat reservations)
                ++ flat_map (emitted (volume_step w)) (firstn n volumes))%list
        /\ (Forall (fun v => VolumeId v <> None /\ Size v <> None) volumes ->
            firstn n volumes = volumes)).
Proof.
  split; [apply run_analyzers_run|].
  split.
  { unfold ec2_call, rds_call, storage_call, unused_call.
    rewrite (analyze_ec2_costs_total _ _ _ tt) at 1.
    rewrite (analyze_rds_costs_total _ _ _ tt) at 1.
    rewrite (analyze_storage_costs_total _ _ tt) at 1.
    rewrite (check_unused_resources_total _ _ _ tt) at 1.
    repeat split. }
  split; [|split].
  - intros reservations Hc Hq.
    destruct (processed_firstn ec2_step (List.concat reservations)) as [n Hn].
    exists n. split.
    + unfold ec2_call. rewrite analyze_ec2_costs_run, Hc, Hq.
      cbv zeta. cbn [outcome].
      now rewrite scan_processed, Hn.
    + intros Hwf. rewrite <- Hn. clear Hn.
      induction Hwf as [|i l [Hid Hty] _ IH]; simpl; [reflexivity|].
      destruct (InstanceId i) as [id|] eqn:Eid; [|congruence].
      destruct (InstanceType i) as [ty|] eqn:Ety; [|congruence].
      rewrite (ec2_step_present i id ty Eid Ety). now rewrite IH.
  - intros db_instances Hc Hq.
    destruct (processed_firstn rds_step db_instances) as [n Hn].
    exists n. split.
    + unfold rds_call. rewrite analyze_rds_costs_run, Hc, Hq.
      cbv zeta. cbn [outcome].
      now rewrite scan_processed, Hn.
    + intros Hwf. rewrite <- Hn. clear Hn Hq.
      induction Hwf as [|db l [Hid Hcls] _ IH]; simpl; [reflexivity|].
      destruct (DBInstanceIdentifier db) as [id|] eqn:Eid; [|congruence].
      destruct (DBInstanceClass db) as [cls|] eqn:Ecls; [|congruence].
      rewrite (rds_step_present db id cls Eid Ecls). now rewrite IH.
  - intros reservations volumes Hq Hv Hids.
    destruct (processed_firstn (volume_step w) volumes) as [n Hn].
    exists n. split.
    + unfold unused_call. rewrite check_unused_resources_run, Hq, Hv.
      rewrite scan_all_ok.
      * cbv zeta. cbn [fst snd outcome].
        now rewrite scan_processed, Hn.
      * eapply Forall_impl; [|exact Hids].
        intros [id ty spot] Hid. unfold stopped_step. cbn [InstanceId] in *.
        destruct id; [eauto | congruence].
    + intros Hwf. rewrite <- Hn. clear Hn Hv.
      induction Hwf as [|[id size] l [Hid Hsize] _ IH]; simpl; [reflexivity|].
      unfold volume_step at 1. cbn [VolumeId Size] in *.
      destruct id; [|congruence]. destruct size; [|congruence].
      now rewrite IH.
Qed.

Lemma recommendations_in_order_fleet :
  locals (run_analyzers (boto3_ec2 fleet_world) (boto3_rds fleet_world)
            billed_costs fleet_world [])
    = [ EC2_RIGHTSIZING "i-0large" "m5.xlarge";
        EC2_SPOT_INSTANCES "i-0large";
        RDS_BACKUP_OPTIMIZATION "db-eight" 8;
        RDS_RIGHTSIZING "db-bare" "db.m5.large";
        UNUSED_EC2_INSTANCE "i-0stopped";
        UNATTACHED_EBS_VOLUME fleet_world "vol-0free" 50 ]
  /\ (exists n,
        outcome (ec2_call fleet_world billed_costs)
          = Ok (flat_map (emitted ec2_step)
                         (firstn n [large_on_demand; small_spot]))
        /\ firstn n [large_on_demand; small_spot] = [large_on_demand; small_spot])
  /\ (exists n,
        outcome (rds_call fleet_world billed_costs)
          = Ok (flat_map (emitted rds_step)
                  (firstn n [week_retention; eight_day_retention; no_retention_field]))
        /\ firstn n [week_retention; eight_day_retention; no_retention_field]
           = [week_retention; eight_day_retention; no_retention_field]).
Proof.
  destruct (recommendations_in_analyzer_and_inventory_order fleet_world
              billed_costs) as (Hrun & _ & Hec2 & Hrds & _).
  split; [rewrite Hrun; reflexivity|].
  split.
  - destruct (Hec2 [[large_on_demand]; [small_spot]] eq_refl eq_refl)
      as (n & Hn & Hall).
    exists n. split; [exact Hn|]. apply Hall. repeat constructor; discriminate.
  - destruct (Hrds [week_retention; eight_day_retention; no_retention_field]
                eq_refl eq_refl) as (n & Hn & Hall).
    exists n. split; [exact Hn|]. apply Hall. repeat constructor; discriminate.
Defined.

(** C10.  A database record without the BackupRetentionPeriod key is
    handled exactly as one whose retention is 0: the lookup does not
    raise, no backup-retention entry is appended, and the rightsizing
    check alone decides what the record contributes. *)
Theorem missing_retention_counts_as_zero db w recommendations :
  BackupRetentionPeriod db = None ->
  rds_instance_checks db w recommendations
    = rds_instance_checks
        {| DBInstanceIdentifier := DBInstanceIdentifier db;
           DBInstanceClass := DBInstanceClass db;
           BackupRetentionPeriod := Some 0 |} w recommendations
  /\ forall db_class,
       DBInstanceClass db = Some db_class ->
       rds_instance_checks db w recommendations =
         if contains "large" db_class || contains "xlarge" db_class then
           match DBInstanceIdentifier db with
           | Some resource =>
               Run (Ok tt)
                   (recommendations ++ [RDS_RIGHTSIZING resource db_class])%list []
           | None => Run (Raise (KeyError "DBInstanceIdentifier")) recommendations []
           end
         else Run (Ok tt) recommendations [].
Proof.
  intros Hret. destruct db as [id cls ret_]. cbn in Hret. subst ret_. split.
  - reflexivity.
  - cbn [DBInstanceClass DBInstanceIdentifier]. intros db_class ->.
    rewrite rds_instance_checks_appends. unfold rds_step, has_size_token, retention_of.
    cbn [DBInstanceClass DBInstanceIdentifier BackupRetentionPeriod].
    change (0 >? 7) with false. rewrite orb_false_r.
    destruct (contains "large" db_class || contains "xlarge" db_class);
      [|now rewrite app_nil_r].
    destruct id; [|reflexivity]. reflexivity.
Qed.

Lemma missing_retention_counts_as_zero_bare :
  rds_instance_checks no_retention_field fleet_world []
    = rds_instance_checks
        {| DBInstanceIdentifier := Some "db-bare";
           DBInstanceClass := Some "db.m5.large";
           BackupRetentionPeriod := Some 0 |} fleet_world []
  /\ rds_instance_checks no_retention_field fleet_world []
       = Run (Ok tt) [RDS_RIGHTSIZING "db-bare" "db.m5.large"] [].
Proof.
  destruct (missing_retention_counts_as_zero no_retention_field fleet_world []
              eq_refl) as [Hzero Hcheck].
  split; [exact Hzero|].
  rewrite (Hcheck "db.m5.large" eq_refl). reflexivity.
Defined.

(** ** The cost summary *)

Lemma append_assoc (a b c : string) : (a ++ b) ++ c = a ++ (b ++ c).
Proof. induction a as [|x a IH]; simpl; [reflexivity | now rewrite IH]. Qed.

Lemma append_nil_r (a : string) : a ++ EmptyString = a.
Proof. induction a as [|x a IH]; simpl; [reflexivity | now rewrite IH]. Qed.

(** Sorting only rearranges the entries. *)
Lemma insert_by_cost_permutation x l :
  Permutation (insert_by_cost x l) (x :: l).
Proof.
  induction l as [|y l IH]; simpl; [reflexivity|].
  destruct (snd y >? snd x)%D; [|reflexivity].
  rewrite IH. apply perm_swap.
Qed.

Lemma sorted_by_cost_permutation items :
  Permutation (sorted_by_cost items) items.
Proof.
  unfold sorted_by_cost. induction items as [|x items IH]; simpl; [reflexivity|].
  rewrite insert_by_cost_permutation. now rewrite IH.
Qed.

Lemma gtb_zero_not_zero d :
  (d >? Decimal 0)%D = true -> PyDecimal.is_zero d = false.
Proof.
  unfold PyDecimal.gtb, PyDecimal.is_zero, PyDecimal.signed.
  destruct (PyDecimal.d_int d =? 0) eqn:E; [|reflexivity].
  apply Z.eqb_eq in E. rewrite E. cbn [Decimal PyDecimal.of_Z PyDecimal.d_int
    PyDecimal.d_sign PyDecimal.d_exp]. simpl (0 <? 0). cbv iota.
  destruct (PyDecimal.d_sign d); simpl; intros H;
    apply Z.gtb_lt in H; lia.
Qed.

Lemma div_defined cost total_cost :
  (total_cost >? Decimal 0)%D = true ->
  exists q, PyDecimal.div cost total_cost = Some q.
Proof.
  intros H. apply gtb_zero_not_zero in H. unfold PyDecimal.div. rewrite H.
  destruct (PyDecimal.is_zero cost); [eauto|].
  cbv zeta. destruct (_ =? 0); [|eauto].
  destruct (PyDecimal.strip_fuel _ _ _ _). eauto.
Qed.

Lemma percentage_run {S} cost total_cost w (s : S) :
  percentage cost total_cost w s = Run (Ok (percentage_of cost total_cost)) s [].
Proof.
  unfold percentage, percentage_of.
  destruct (total_cost >? Decimal 0)%D eqn:E; [|reflexivity].
  destruct (div_defined cost total_cost E) as [q Hq]. now rewrite Hq.
Qed.

Lemma top_services_lines items total_cost w report :
  for_each items (fun '(service, cost) =>
    p <- percentage cost total_cost ;;
    w <- ask ;;
    modify (fun report =>
      report ++ "  • " ++ service ++ ": $" ++ float_2f w cost
             ++ " (" ++ format_1f p ++ "%)" ++ nl)) w report
  = Run (Ok tt) (report ++ join (map (service_line w total_cost) items)) [].
Proof.
  revert report. induction items as [|[service cost] items IH]; intros report.
  - simpl. now rewrite append_nil_r.
  - cbn [for_each map join fold_right]. unfold bind at 1.
    unfold bind at 1. rewrite percentage_run. run_unfold.
    rewrite IH. cbn [outcome locals trace].
    now rewrite append_assoc.
Qed.

Lemma top_services_run service_costs total_cost w report :
  top_services service_costs total_cost w report =
  Run (Ok tt)
      (report ++ join (map (service_line w total_cost)
                           (firstn 5 (sorted_by_cost service_costs)))) [].
Proof. unfold top_services. apply top_services_lines. Qed.







(** ** The notifier on its own

    [send_notification] does what the specification says of it: one
    [publish] with the derived subject, and a failure of that call is
    logged and swallowed.  Only, [handler] never reaches the call. *)
Lemma send_notification_run {S} sns_client topic_arn report project_name
    environment w (s : S) :
  send_notification sns_client topic_arn report project_name environment w s =
  let subject :=
    "Cost Optimization Report - " ++ project_name ++ " (" ++ environment ++ ")" in
  Run (Ok tt) s
      [ Publish topic_arn subject report;
        Print match sns_publish sns_client topic_arn subject report with
              | Ok _ => "Cost optimization report sent successfully"
              | Raise e => "Error sending notification: " ++ str_exn e
              end ].
Proof.
  unfold send_notification, publish. run_unfold.
  destruct (sns_publish _ _ _ _) as [[]|e]; reflexivity.
Qed.

(** ** The Decimal model on sample values *)

Example decimal_division_repeating :
  PyDecimal.div (Decimal 2) (Decimal 3)
  = Some (PyDecimal.Dec false 6666666666666666666666666667 (-28)).
Proof. vm_compute. reflexivity. Qed.

Example decimal_division_exact :
  PyDecimal.div (Decimal 150) (Decimal 160) = Some (PyDecimal.Dec false 9375 (-4)).
Proof. vm_compute. reflexivity. Qed.

Example decimal_sum_rounds_to_precision :
  (PyDecimal.Dec false 9999999999999999999999999999 0 + PyDecimal.Dec false 15 (-1))%D
  = PyDecimal.Dec false 1000000000000000000000000000 1.
Proof. vm_compute. reflexivity. Qed.

Example decimal_format_ties_to_even :
  PyDecimal.format_f 1 (PyDecimal.Dec false 25 (-2)) = "0.2"
  /\ PyDecimal.format_f 1 (PyDecimal.Dec false 35 (-2)) = "0.4"
  /\ PyDecimal.format_f 1 (PyDecimal.Dec true 1 (-4)) = "-0.0".
Proof. repeat split; vm_compute; reflexivity. Qed.

Example aggregate_costs_sums_buckets :
  aggregate_costs
    [ [("Amazon Simple Storage Service", PyDecimal.Dec false 1250 (-2));
       ("Amazon Elastic Block Store", Decimal 3)];
      [("Amazon Simple Storage Service", PyDecimal.Dec false 875 (-2))] ]
  = ( [ ("Amazon Simple Storage Service", PyDecimal.Dec false 2125 (-2));
        ("Amazon Elastic Block Store", Decimal 3) ],
      PyDecimal.Dec false 2425 (-2) ).
Proof. vm_compute. reflexivity. Qed.

(** ** Further facts about the handler *)

(** A missing configuration value is read outside the [try]: the
    KeyError leaves the handler. *)
Lemma handler_missing_configuration w :
  dict_lookup (environ w) "PROJECT_NAME" = None ->
  invoke w = Run (Raise (KeyError "PROJECT_NAME")) tt [].
Proof.
  intros H. unfold invoke, handler, os_environ. run_unfold. rewrite H.
  reflexivity.
Qed.

(** No invocation at all is answered with status 200. *)
Lemma handler_never_answers_200 w r :
  outcome (invoke w) = Ok r -> statusCode r = 500.
Proof.
  unfold invoke.
  destruct (dict_lookup (environ w) "PROJECT_NAME") as [pn|] eqn:Hp.
  2:{ unfold handler, os_environ. run_unfold. rewrite Hp. discriminate. }
  destruct (dict_lookup (environ w) "ENVIRONMENT") as [en|] eqn:He.
  2:{ unfold handler, os_environ. run_unfold. rewrite Hp. run_unfold.
      rewrite He. discriminate. }
  destruct (dict_lookup (environ w) "SNS_TOPIC_ARN") as [arn|] eqn:Ht.
  2:{ unfold handler, os_environ. run_unfold. rewrite Hp. run_unfold.
      rewrite He. run_unfold. rewrite Ht. discriminate. }
  rewrite (handler_run w tt _ _ _ Hp He Ht).
  destruct (ce_get_cost_and_usage _ _); cbn [outcome];
    intros [= <-]; reflexivity.
Qed.

Lemma logged_fixed prefix err : Forall fixed_query (logged prefix err).
Proof. destruct err; repeat constructor. Qed.

(** The filters of the inventory queries are the same three lists in
    every world: they do not depend on the configured project. *)
Lemma inventory_queries_are_fixed w service_costs :
  Forall fixed_query
    (trace (ec2_call w service_costs) ++ trace (rds_call w service_costs)
       ++ trace (storage_call w service_costs) ++ trace (unused_call w))%list.
Proof.
  unfold ec2_call, rds_call, storage_call, unused_call.
  rewrite analyze_ec2_costs_run, analyze_rds_costs_run,
          analyze_storage_costs_run, check_unused_resources_run.
  rewrite !Forall_app. repeat split.
  - destruct (_ >? _)%D; [|constructor].
    destruct (ec2_describe_instances _ _); cbn [trace].
    + constructor; [now left | apply logged_fixed].
    + constructor; [now left | repeat constructor].
  - destruct (_ >? _)%D; [|constructor].
    destruct (rds_describe_db_instances _); cbn [trace].
    + constructor; [exact I | apply logged_fixed].
    + repeat constructor.
  - constructor.
  - destruct (ec2_describe_instances _ _); cbn [trace].
    + cbv zeta. destruct (snd _); cbn [trace].
      * constructor; [now right | repeat constructor].
      * destruct (ec2_describe_volumes _ _); cbn [trace].
        -- constructor; [now right|].
           constructor; [reflexivity | apply logged_fixed].
        -- constructor; [now right | repeat constructor].
    + constructor; [now right | repeat constructor].
Qed.

(** The report section for a backup-retention entry prints its type,
    resource, message and savings; the retention value stays in the
    record. *)
Example backup_entry_rendering :
  recommendations_section [RDS_BACKUP_OPTIMIZATION "db-eight" 8] idle_world
                          EmptyString
  = Run (Ok tt)
        (nl ++ "OPTIMIZATION RECOMMENDATIONS (1 found):" ++ nl
            ++ nl ++ "1. Rds Backup Optimization" ++ nl
            ++ "   Resource: db-eight" ++ nl
            ++ "   Recommendation: Consider reducing backup retention period if not required for compliance" ++ nl
            ++ "   Potential Savings: Reduce backup storage costs" ++ nl)
        [].
Proof. vm_compute. reflexivity. Qed.

(** * Further properties of the module *)

(** ** The cost aggregation (lines 51-59) *)

Lemma dict_lookup_set {V} (d : dict V) k v k' :
  dict_lookup (dict_set d k v) k'
  = if String.eqb k k' then Some v else dict_lookup d k'.
Proof.
  induction d as [|[k0 v0] d IH]; simpl.
  - destruct (String.eqb_spec k k'); reflexivity.
  - destruct (String.eqb_spec k0 k) as [->|Hne]; simpl.
    + destruct (String.eqb_spec k k'); reflexivity.
    + rewrite IH. destruct (String.eqb_spec k0 k') as [->|Hne'];
        [|reflexivity].
      destruct (String.eqb_spec k k'); [congruence | reflexivity].
Qed.

Lemma dict_set_keys {V} (d : dict V) k v :
  map fst (dict_set d k v)
  = if existsb (String.eqb k) (map fst d) then map fst d
    else (map fst d ++ [k])%list.
Proof.
  induction d as [|[k0 v0] d IH]; simpl; [reflexivity|].
  rewrite (String.eqb_sym k k0).
  destruct (String.eqb k0 k); simpl; [reflexivity|].
  rewrite IH. destruct (existsb _ _); reflexivity.
Qed.

Lemma aggregate_costs_flat cost_response :
  aggregate_costs cost_response
  = fold_left aggregate_step (List.concat cost_response) ([], Decimal 0).
Proof.
  unfold aggregate_costs. generalize (@nil (string * PyDecimal.t), Decimal 0).
  induction cost_response as [|result rest IH]; intros acc; simpl;
    [reflexivity|].
  rewrite fold_left_app. apply IH.
Qed.

Lemma aggregate_fold_total groups acc :
  snd (fold_left aggregate_step groups acc)
  = fold_left PyDecimal.add (map snd groups) (snd acc).
Proof.
  revert acc. induction groups as [|[service cost] groups IH];
    intros [service_costs total_cost]; simpl; [reflexivity|].
  now rewrite IH.
Qed.

Lemma aggregate_fold_lookup groups acc service :
  dict_lookup (fst (fold_left aggregate_step groups acc)) service
  = match dict_lookup (fst acc) service, amounts_of service groups with
    | Some v, amounts => Some (fold_left PyDecimal.add amounts v)
    | None, [] => None
    | None, amounts => Some (decimal_sum amounts)
    end.
Proof.
  revert acc. induction groups as [|[name cost] groups IH];
    intros [service_costs total_cost].
  - simpl. destruct (dict_lookup service_costs service); reflexivity.
  - cbn [fold_left aggregate_step]. rewrite IH. cbn [fst].
    rewrite dict_lookup_set. unfold amounts_of. cbn [List.filter fst].
    destruct (String.eqb_spec name service) as [->|Hne]; cbn [map snd].
    + unfold dict_get.
      destruct (dict_lookup service_costs service); reflexivity.
    + reflexivity.
Qed.

Lemma aggregate_fold_keys groups acc :
  map fst (fst (fold_left aggregate_step groups acc))
  = fold_left (fun seen name =>
                 if existsb (String.eqb name) seen then seen
                 else (seen ++ [name])%list)
              (map fst groups) (map fst (fst acc)).
Proof.
  revert acc. induction groups as [|[name cost] groups IH];
    intros [service_costs total_cost]; [reflexivity|].
  cbn [fold_left aggregate_step map fst]. rewrite IH. cbn [fst].
  now rewrite dict_set_keys.
Qed.

Lemma dict_set_NoDup {V} (d : dict V) k v :
  NoDup (map fst d) -> NoDup (map fst (dict_set d k v)).
Proof.
  intros H. rewrite dict_set_keys.
  destruct (existsb (String.eqb k) (map fst d)) eqn:E; [exact H|].
  apply NoDup_app; [exact H | repeat constructor; intros [] |].
  intros x Hin [<-|[]].
  assert (existsb (String.eqb k) (map fst d) = true); [|congruence].
  apply existsb_exists. exists k. split; [exact Hin | apply String.eqb_refl].
Qed.

Lemma aggregate_fold_NoDup groups acc :
  NoDup (map fst (fst acc)) ->
  NoDup (map fst (fst (fold_left aggregate_step groups acc))).
Proof.
  revert acc. induction groups as [|[name cost] groups IH];
    intros [service_costs total_cost] H; [exact H|].
  cbn [fold_left aggregate_step]. apply IH. cbn [fst] in *.
  now apply dict_set_NoDup.
Qed.

(** X1.  The grand total is the running Decimal sum of every amount of
    the response, bucket after bucket; the cost recorded for a service
    is the running sum of that service's amounts over all buckets, and a
    service the response never names has no entry. *)
Theorem aggregate_costs_sums cost_response :
  snd (aggregate_costs cost_response)
    = decimal_sum (map snd (List.concat cost_response))
  /\ forall service,
       dict_lookup (fst (aggregate_costs cost_response)) service
       = match amounts_of service (List.concat cost_response) with
         | [] => None
         | amounts => Some (decimal_sum amounts)
         end.
Proof.
  rewrite aggregate_costs_flat. split.
  - apply aggregate_fold_total.
  - intros service. rewrite aggregate_fold_lookup. reflexivity.
Qed.

(** X2.  The cost mapping names every billed service once, in the order
    in which the services first appear in the response. *)
Theorem aggregate_costs_keys cost_response :
  map fst (fst (aggregate_costs cost_response))
    = first_occurrences (map fst (List.concat cost_response))
  /\ NoDup (map fst (fst (aggregate_costs cost_response))).
Proof.
  rewrite aggregate_costs_flat. split.
  - apply aggregate_fold_keys.
  - apply aggregate_fold_NoDup. constructor.
Qed.

(** ** Comparison of Decimals and the sort of the summary (line 259) *)

(** Comparing at the smaller exponent is comparing at any exponent
    below both. *)
Lemma gtb_scaled a b m :
  m <= PyDecimal.d_exp a -> m <= PyDecimal.d_exp b ->
  (a >? b)%D
  = (PyDecimal.signed a * 10 ^ (PyDecimal.d_exp a - m)
     >? PyDecimal.signed b * 10 ^ (PyDecimal.d_exp b - m)).
Proof.
  intros Ha Hb. unfold PyDecimal.gtb.
  set (e := Z.min (PyDecimal.d_exp a) (PyDecimal.d_exp b)).
  assert (He : m <= e) by (unfold e; lia).
  assert (Hea : e <= PyDecimal.d_exp a) by (unfold e; lia).
  assert (Heb : e <= PyDecimal.d_exp b) by (unfold e; lia).
  replace (PyDecimal.d_exp a - m) with ((PyDecimal.d_exp a - e) + (e - m)) by lia.
  replace (PyDecimal.d_exp b - m) with ((PyDecimal.d_exp b - e) + (e - m)) by lia.
  rewrite !Z.pow_add_r by lia.
  assert (Hk : 0 < 10 ^ (e - m)) by (apply Z.pow_pos_nonneg; lia).
  set (k := 10 ^ (e - m)) in *.
  set (x := PyDecimal.signed a * 10 ^ (PyDecimal.d_exp a - e)).
  set (y := PyDecimal.signed b * 10 ^ (PyDecimal.d_exp b - e)).
  replace (PyDecimal.signed a * (10 ^ (PyDecimal.d_exp a - e) * k))
    with (x * k) by (unfold x; ring).
  replace (PyDecimal.signed b * (10 ^ (PyDecimal.d_exp b - e) * k))
    with (y * k) by (unfold y; ring).
  destruct (Z.gtb_spec x y), (Z.gtb_spec (x * k) (y * k)); try reflexivity; nia.
Qed.

Lemma gtb_asymmetric a b : (a >? b)%D = true -> (b >? a)%D = false.
Proof.
  set (m := Z.min (PyDecimal.d_exp a) (PyDecimal.d_exp b)).
  rewrite (gtb_scaled a b m), (gtb_scaled b a m) by (unfold m; lia).
  intros H. apply Z.gtb_lt in H.
  destruct (Z.gtb_spec (PyDecimal.signed b * 10 ^ (PyDecimal.d_exp b - m))
                       (PyDecimal.signed a * 10 ^ (PyDecimal.d_exp a - m)));
    [lia | reflexivity].
Qed.

Lemma not_gtb_transitive a b c :
  (b >? a)%D = false -> (c >? b)%D = false -> (c >? a)%D = false.
Proof.
  set (m := Z.min (PyDecimal.d_exp a)
                  (Z.min (PyDecimal.d_exp b) (PyDecimal.d_exp c))).
  rewrite (gtb_scaled b a m), (gtb_scaled c b m), (gtb_scaled c a m)
    by (unfold m; lia).
  intros H1 H2.
  destruct (Z.gtb_spec (PyDecimal.signed b * 10 ^ (PyDecimal.d_exp b - m))
                       (PyDecimal.signed a * 10 ^ (PyDecimal.d_exp a - m)));
    [discriminate|].
  destruct (Z.gtb_spec (PyDecimal.signed c * 10 ^ (PyDecimal.d_exp c - m))
                       (PyDecimal.signed b * 10 ^ (PyDecimal.d_exp b - m)));
    [discriminate|].
  destruct (Z.gtb_spec (PyDecimal.signed c * 10 ^ (PyDecimal.d_exp c - m))
                       (PyDecimal.signed a * 10 ^ (PyDecimal.d_exp a - m)));
    [lia | reflexivity].
Qed.

Lemma insert_by_cost_descending x items :
  descending items -> descending (insert_by_cost x items).
Proof.
  unfold descending. induction 1 as [|y items Hs IH Hy]; simpl.
  - repeat constructor.
  - destruct (snd y >? snd x)%D eqn:E.
    + constructor; [exact IH|].
      eapply Permutation_Forall;
        [symmetry; apply insert_by_cost_permutation|].
      constructor; [now apply gtb_asymmetric | exact Hy].
    + constructor; [now constructor|].
      constructor; [exact E|].
      eapply Forall_impl; [|exact Hy].
      intros z Hz. cbv beta in *. eapply not_gtb_transitive; eassumption.
Qed.

Lemma sorted_by_cost_descending items : descending (sorted_by_cost items).
Proof.
  unfold sorted_by_cost. induction items as [|x items IH]; simpl.
  - constructor.
  - now apply insert_by_cost_descending.
Qed.

(** X3.  The sort of line 259 rearranges the entries of the mapping and
    leaves them in descending order of cost: no entry is followed by one
    of strictly greater cost. *)
Theorem sorted_by_cost_sorts items :
  Permutation (sorted_by_cost items) items
  /\ descending (sorted_by_cost items).
Proof.
  split; [apply sorted_by_cost_permutation | apply sorted_by_cost_descending].
Qed.

(** A mapping whose entries are already in descending order, ties
    included, is left exactly as it is. *)
Lemma sorted_by_cost_fixes_descending items :
  descending items -> sorted_by_cost items = items.
Proof.
  unfold descending, sorted_by_cost.
  induction 1 as [|x items Hs IH Hx]; simpl; [reflexivity|].
  rewrite IH. destruct items as [|y items]; [reflexivity|].
  simpl. inversion Hx as [|? ? Hy _]; subst. now rewrite Hy.
Qed.

Lemma sorted_by_cost_stable_ties :
  sorted_by_cost
    [ ("Amazon Simple Storage Service", Decimal 30);
      ("Amazon Elastic Block Store", PyDecimal.Dec false 3000 (-2));
      ("AWS Lambda", Decimal 5) ]
  = [ ("Amazon Simple Storage Service", Decimal 30);
      ("Amazon Elastic Block Store", PyDecimal.Dec false 3000 (-2));
      ("AWS Lambda", Decimal 5) ].
Proof.
  apply sorted_by_cost_fixes_descending. repeat constructor.
Defined.

Lemma gtb_excludes_same_cost x y d :
  (y >? x)%D = true -> same_cost x d = true -> same_cost y d = true -> False.
Proof.
  unfold same_cost.
  set (m := Z.min (PyDecimal.d_exp x)
                  (Z.min (PyDecimal.d_exp y) (PyDecimal.d_exp d))).
  rewrite (gtb_scaled y x m), (gtb_scaled x d m), (gtb_scaled d x m),
          (gtb_scaled y d m), (gtb_scaled d y m) by (unfold m; lia).
  set (X := PyDecimal.signed x * 10 ^ (PyDecimal.d_exp x - m)).
  set (Y := PyDecimal.signed y * 10 ^ (PyDecimal.d_exp y - m)).
  set (D := PyDecimal.signed d * 10 ^ (PyDecimal.d_exp d - m)).
  intros Hyx Hx Hy.
  apply andb_true_iff in Hx. destruct Hx as [Hxd Hdx].
  apply andb_true_iff in Hy. destruct Hy as [Hyd Hdy].
  apply negb_true_iff in Hxd, Hdx, Hyd, Hdy.
  destruct (Z.gtb_spec Y X); [|discriminate].
  destruct (Z.gtb_spec X D); [discriminate|].
  destruct (Z.gtb_spec D X); [discriminate|].
  destruct (Z.gtb_spec Y D); [discriminate|].
  destruct (Z.gtb_spec D Y); [discriminate|].
  lia.
Qed.

Lemma insert_by_cost_keeps_ties d x items :
  List.filter (fun y => same_cost (snd y) d) (insert_by_cost x items)
  = List.filter (fun y => same_cost (snd y) d) (x :: items).
Proof.
  induction items as [|y items IH]; [reflexivity|].
  cbn [insert_by_cost]. destruct (snd y >? snd x)%D eqn:E; [|reflexivity].
  cbn [List.filter] in *. rewrite IH.
  destruct (same_cost (snd x) d) eqn:Ex, (same_cost (snd y) d) eqn:Ey;
    try reflexivity.
  exfalso. exact (gtb_excludes_same_cost _ _ _ E Ex Ey).
Qed.

(** X4.  The sort is stable on every mapping: for any cost, the entries
    of that value appear after the sort in the same relative order as
    in the mapping. *)
Theorem sorted_by_cost_stable items d :
  List.filter (fun y => same_cost (snd y) d) (sorted_by_cost items)
  = List.filter (fun y => same_cost (snd y) d) items.
Proof.
  unfold sorted_by_cost. induction items as [|x items IH]; [reflexivity|].
  cbn [fold_right]. rewrite insert_by_cost_keeps_ties.
  cbn [List.filter]. rewrite IH. reflexivity.
Qed.

(** Equal costs keep their mapping order, also when they are written
    with different exponents. *)
Example sorted_by_cost_keeps_ties_in_order :
  sorted_by_cost [ ("A", Decimal 1); ("B", Decimal 2);
                   ("C", PyDecimal.Dec false 200 (-2)) ]
  = [ ("B", Decimal 2); ("C", PyDecimal.Dec false 200 (-2)); ("A", Decimal 1) ].
Proof. reflexivity. Qed.

Lemma StronglySorted_app_cross {A} (R : A -> A -> Prop) l1 l2 :
  StronglySorted R (l1 ++ l2) ->
  forall x y, In x l1 -> In y l2 -> R x y.
Proof.
  induction l1 as [|a l1 IH]; simpl; intros Hs x y Hx Hy; [contradiction|].
  inversion Hs as [|? ? Hs' Ha]; subst. destruct Hx as [<-|Hx].
  - rewrite Forall_forall in Ha. apply Ha, in_or_app. now right.
  - now apply IH.
Qed.

(** X5.  The summary prints one line for each of the five costliest
    services, or for all of them when there are fewer: the entries it
    leaves out cost no more than any entry it prints. *)
Theorem top_services_shows_the_largest w service_costs total_cost report :
  exists shown hidden,
    Permutation (shown ++ hidden) service_costs
    /\ List.length shown = Nat.min 5 (List.length service_costs)
    /\ top_services service_costs total_cost w report
       = Run (Ok tt) (report ++ join (map (service_line w total_cost) shown)) []
    /\ forall x y, In x shown -> In y hidden ->
                   (snd y >? snd x)%D = false.
Proof.
  exists (firstn 5 (sorted_by_cost service_costs)),
         (skipn 5 (sorted_by_cost service_costs)).
  rewrite firstn_skipn. repeat split.
  - apply sorted_by_cost_permutation.
  - rewrite length_firstn.
    now rewrite (Permutation_length (sorted_by_cost_permutation service_costs)).
  - apply top_services_run.
  - apply (StronglySorted_app_cross
             (fun x y => (snd y >? snd x)%D = false)).
    rewrite firstn_skipn. apply sorted_by_cost_descending.
Qed.

(** ** The cost thresholds, by value *)

(** A non-negative amount [c * 10^e] with [e <= 0] exceeds the integer
    [n] exactly when [c > n * 10^(-e)]: trailing zeros of the amount do
    not matter. *)
Lemma gtb_threshold c e n :
  e <= 0 ->
  (PyDecimal.Dec false c e >? Decimal n)%D = (c >? n * 10 ^ (- e)).
Proof.
  intros He.
  pose proof (gtb_scaled (PyDecimal.Dec false c e) (Decimal n) e) as H.
  unfold Decimal, PyDecimal.of_Z, PyDecimal.signed in *.
  cbn [PyDecimal.d_sign PyDecimal.d_int PyDecimal.d_exp] in H.
  rewrite H by lia. clear H.
  replace (e - e) with 0 by lia. replace (0 - e) with (- e) by lia.
  rewrite Z.pow_0_r, Z.mul_1_r.
  replace (if n <? 0 then - Z.abs n else Z.abs n) with n; [reflexivity|].
  destruct (Z.ltb_spec n 0); lia.
Qed.

(** X6.  The storage analyzer reads the cost mapping only: it calls no
    service and never raises.  It returns the lifecycle entry exactly
    when the object-storage amount is strictly above 20 and the volume
    entry exactly when the block-storage amount is strictly above 30, in
    that order; a service missing from the mapping counts as 0. *)
Theorem storage_analyzer_thresholds w service_costs c e c' e' :
  e <= 0 -> e' <= 0 ->
  dict_get service_costs "Amazon Simple Storage Service" (Decimal 0)
    = PyDecimal.Dec false c e ->
  dict_get service_costs "Amazon Elastic Block Store" (Decimal 0)
    = PyDecimal.Dec false c' e' ->
  storage_call w service_costs
  = Run (Ok ((if c >? 20 * 10 ^ (- e) then [S3_LIFECYCLE_OPTIMIZATION] else [])
             ++ (if c' >? 30 * 10 ^ (- e') then [EBS_OPTIMIZATION] else []))%list)
        tt [].
Proof.
  intros He He' Hs3 Hebs. unfold storage_call.
  rewrite analyze_storage_costs_run, Hs3, Hebs.
  now rewrite !gtb_threshold.
Qed.

Lemma storage_analyzer_thresholds_boundary :
  storage_call idle_world boundary_costs = Run (Ok [EBS_OPTIMIZATION]) tt []
  /\ storage_call idle_world [] = Run (Ok []) tt [].
Proof.
  split.
  - apply (storage_analyzer_thresholds idle_world boundary_costs
             2000 (-2) 3001 (-2)); [lia | lia | reflexivity | reflexivity].
  - apply (storage_analyzer_thresholds idle_world [] 0 0 0 0);
      [lia | lia | reflexivity | reflexivity].
Defined.

(** X7.  The database analyzer is gated by value: with a database
    amount of at most 50 (a missing entry counts as 0) it returns an
    empty list without calling the inventory, and with an amount
    strictly above 50 its first action is the inventory query. *)
Theorem database_analyzer_gate w service_costs c e :
  e <= 0 ->
  rds_cost_of service_costs = PyDecimal.Dec false c e ->
  (c <= 50 * 10 ^ (- e) -> rds_call w service_costs = Run (Ok []) tt [])
  /\ (c > 50 * 10 ^ (- e) ->
      exists rest, trace (rds_call w service_costs) = DescribeDBInstances :: rest).
Proof.
  intros He Hc. unfold rds_call. rewrite analyze_rds_costs_run, Hc.
  rewrite gtb_threshold by exact He. split; intros H.
  - destruct (Z.gtb_spec c (50 * 10 ^ (- e))); [lia | reflexivity].
  - destruct (Z.gtb_spec c (50 * 10 ^ (- e))); [|lia].
    destruct (rds_describe_db_instances _); eexists; reflexivity.
Qed.

Lemma database_analyzer_gate_boundary :
  rds_call fleet_world boundary_costs = Run (Ok []) tt []
  /\ exists rest,
       trace (rds_call fleet_world billed_costs) = DescribeDBInstances :: rest.
Proof.
  split.
  - apply (database_analyzer_gate fleet_world boundary_costs 50000 (-3));
      [lia | reflexivity | cbn; lia].
  - apply (database_analyzer_gate fleet_world billed_costs 60 0);
      [lia | reflexivity | cbn; lia].
Defined.

(** ** Records with a missing key *)

Lemma scan_stops_at_raise {A} (step : A -> result (list recommendation))
    pre bad post e :
  Forall (fun x => exists rs, step x = Ok rs) pre ->
  step bad = Raise e ->
  scan step (pre ++ bad :: post) = (flat_map (emitted step) pre, Some e).
Proof.
  intros Hpre Hbad. induction Hpre as [|x pre [rs Hx] _ IH]; simpl.
  - now rewrite Hbad.
  - unfold emitted at 1. now rewrite Hx, IH.
Qed.

Lemma stopped_scan ids instances :
  map InstanceId instances = map Some ids ->
  scan stopped_step instances = (map UNUSED_EC2_INSTANCE ids, None).
Proof.
  revert ids. induction instances as [|i instances IH]; intros [|id ids] H;
    try discriminate; [reflexivity|].
  simpl in H. injection H as Hid Hrest. simpl. unfold stopped_step at 1.
  now rewrite Hid, (IH ids Hrest).
Qed.

Lemma stopped_scan_ok ids instances :
  map InstanceId instances = map Some ids ->
  Forall (fun i => exists rs, stopped_step i = Ok rs) instances
  /\ flat_map (emitted stopped_step) instances = map UNUSED_EC2_INSTANCE ids.
Proof.
  revert ids. induction instances as [|i instances IH]; intros [|id ids] H;
    try discriminate; [split; constructor|].
  simpl in H. injection H as Hid Hrest. destruct (IH ids Hrest) as [Hok Hmap].
  split.
  - constructor; [|exact Hok]. unfold stopped_step. rewrite Hid. eauto.
  - simpl. unfold emitted at 1, stopped_step at 1. now rewrite Hid, Hmap.
Qed.

Lemma volume_scan w ids sizes volumes :
  List.length ids = List.length sizes ->
  map VolumeId volumes = map Some ids ->
  map Size volumes = map Some sizes ->
  scan (volume_step w) volumes
  = (map (fun '(id, size) => UNATTACHED_EBS_VOLUME w id size) (combine ids sizes),
     None).
Proof.
  revert ids sizes.
  induction volumes as [|v volumes IH]; intros [|id ids] [|size sizes] Hlen Hid Hsize;
    try discriminate; [reflexivity|].
  simpl in *. injection Hid as Hid Hids. injection Hsize as Hsize Hsizes.
  unfold volume_step at 1. rewrite Hid, Hsize.
  rewrite (IH ids sizes); [reflexivity | lia | assumption | assumption].
Qed.

(** X8.  A running instance without an InstanceType ends the compute
    analysis at that record: the KeyError is caught and logged, the
    entries of the records before it are returned, and the records after
    it are not examined. *)
Theorem compute_analyzer_stops_at_untyped_instance
    w service_costs reservations pre bad post :
  (ec2_cost_of service_costs >? Decimal 100)%D = true ->
  ec2_describe_instances (boto3_ec2 w) running_filters = Ok reservations ->
  List.concat reservations = (pre ++ bad :: post)%list ->
  Forall (fun i => InstanceId i <> None /\ InstanceType i <> None) pre ->
  InstanceType bad = None ->
  ec2_call w service_costs
  = Run (Ok (flat_map (emitted ec2_step) pre)) tt
        [ DescribeInstances running_filters;
          Print "Error analyzing EC2 costs: 'InstanceType'" ].
Proof.
  intros Hc Hq Hsplit Hpre Hbad. unfold ec2_call.
  rewrite analyze_ec2_costs_run, Hc, Hq, Hsplit.
  rewrite (scan_stops_at_raise ec2_step pre bad post (KeyError "InstanceType")).
  - reflexivity.
  - eapply Forall_impl; [|exact Hpre]. intros i [Hid Hty].
    destruct (InstanceId i) as [id|] eqn:Eid; [|congruence].
    destruct (InstanceType i) as [ty|] eqn:Ety; [|congruence].
    rewrite (ec2_step_present i id ty Eid Ety). eauto.
  - unfold ec2_step. now rewrite Hbad.
Qed.

Lemma compute_analyzer_stops_at_untyped_instance_damaged :
  ec2_call damaged_world billed_costs
  = Run (Ok [ EC2_RIGHTSIZING "i-0large" "m5.xlarge";
              EC2_SPOT_INSTANCES "i-0large" ]) tt
        [ DescribeInstances running_filters;
          Print "Error analyzing EC2 costs: 'InstanceType'" ].
Proof.
  apply (compute_analyzer_stops_at_untyped_instance damaged_world billed_costs
           [[large_on_demand; untyped_instance]; [small_spot]]
           [large_on_demand] untyped_instance [small_spot]);
    try reflexivity.
  repeat constructor; discriminate.
Defined.

(** X9.  A stopped instance without an InstanceId ends the
    unused-resource analysis before the volume query: the KeyError is
    logged, the entries of the stopped instances before it are returned,
    and [describe_volumes] is never called. *)
Theorem unused_resources_stop_at_anonymous_instance
    w reservations pre ids bad post :
  ec2_describe_instances (boto3_ec2 w) stopped_filters = Ok reservations ->
  List.concat reservations = (pre ++ bad :: post)%list ->
  map InstanceId pre = map Some ids ->
  InstanceId bad = None ->
  unused_call w
  = Run (Ok (map UNUSED_EC2_INSTANCE ids)) tt
        [ DescribeInstances stopped_filters;
          Print "Error checking unused resources: 'InstanceId'" ].
Proof.
  intros Hq Hsplit Hpre Hbad. unfold unused_call.
  rewrite check_unused_resources_run, Hq, Hsplit.
  destruct (stopped_scan_ok ids pre Hpre) as [Hok Hmap].
  rewrite (scan_stops_at_raise stopped_step pre bad post (KeyError "InstanceId"));
    [| exact Hok | unfold stopped_step; now rewrite Hbad].
  cbn [fst snd]. now rewrite Hmap.
Qed.

Lemma unused_resources_stop_at_anonymous_instance_damaged :
  unused_call damaged_world
  = Run (Ok [UNUSED_EC2_INSTANCE "i-0stopped"]) tt
        [ DescribeInstances stopped_filters;
          Print "Error checking unused resources: 'InstanceId'" ].
Proof.
  apply (unused_resources_stop_at_anonymous_instance damaged_world
           [[stopped_instance; anonymous_instance]]
           [stopped_instance] ["i-0stopped"] anonymous_instance []);
    reflexivity.
Defined.

(** X10.  When both inventory queries succeed and every record carries
    its keys, the unused-resource analyzer returns one entry for each
    stopped instance followed by one entry for each available volume, in
    inventory order, whatever the costs; it makes exactly the two
    queries and logs nothing. *)
Theorem unused_resources_one_entry_each w reservations volumes ids vids sizes :
  ec2_describe_instances (boto3_ec2 w) stopped_filters = Ok reservations ->
  ec2_describe_volumes (boto3_ec2 w) volume_filters = Ok volumes ->
  map InstanceId (List.concat reservations) = map Some ids ->
  List.length vids = List.length sizes ->
  map VolumeId volumes = map Some vids ->
  map Size volumes = map Some sizes ->
  unused_call w
  = Run (Ok (map UNUSED_EC2_INSTANCE ids
             ++ map (fun '(id, size) => UNATTACHED_EBS_VOLUME w id size)
                    (combine vids sizes))%list) tt
        [ DescribeInstances stopped_filters; DescribeVolumes volume_filters ].
Proof.
  intros Hq Hv Hids Hlen Hvids Hsizes. unfold unused_call.
  rewrite check_unused_resources_run, Hq, Hv.
  rewrite (stopped_scan ids _ Hids).
  rewrite (volume_scan w vids sizes volumes Hlen Hvids Hsizes).
  reflexivity.
Qed.

Lemma unused_resources_one_entry_each_fleet :
  unused_call fleet_world
  = Run (Ok [ UNUSED_EC2_INSTANCE "i-0stopped";
              UNATTACHED_EBS_VOLUME fleet_world "vol-0free" 50 ]) tt
        [ DescribeInstances stopped_filters; DescribeVolumes volume_filters ].
Proof.
  apply (unused_resources_one_entry_each fleet_world
           [[stopped_instance]]
           [ {| VolumeId := Some "vol-0free"; Size := Some 50 |} ]
           ["i-0stopped"] ["vol-0free"] [50]); reflexivity.
Defined.

(** ** The size test of the database analyzer (line 153) *)

Lemma prefix_xlarge_large s :
  String.prefix "xlarge" s = true -> contains "large" s = true.
Proof.
  destruct s as [|c s]; [discriminate|].
  cbn [String.prefix]. destruct (ascii_dec "x" c); [|discriminate].
  intros H. apply orb_true_iff. right.
  destruct s as [|c' s]; [discriminate H|].
  cbn [contains]. apply orb_true_iff. left. exact H.
Qed.

Lemma contains_xlarge_large s :
  contains "xlarge" s = true -> contains "large" s = true.
Proof.
  induction s as [|c s IH].
  - simpl. discriminate.
  - cbn [contains]. intros H. apply orb_true_iff in H. destruct H as [H|H].
    + apply (prefix_xlarge_large (String c s)) in H. exact H.
    + apply orb_true_iff. right. now apply IH.
Qed.

(** X11.  Every class name that contains "xlarge" contains "large", so
    the second test of line 153 adds nothing: a database record with its
    keys gets a rightsizing entry exactly when its class contains
    "large", followed by a backup entry exactly when its retention
    exceeds 7. *)
Theorem database_rightsizing_on_large db w recommendations id db_class :
  DBInstanceIdentifier db = Some id ->
  DBInstanceClass db = Some db_class ->
  rds_instance_checks db w recommendations
  = Run (Ok tt)
        (recommendations
           ++ (if contains "large" db_class
               then [RDS_RIGHTSIZING id db_class] else [])
           ++ (if retention_of db >? 7
               then [RDS_BACKUP_OPTIMIZATION id (retention_of db)] else []))%list
        [].
Proof.
  intros Hid Hcls. rewrite rds_instance_checks_appends.
  rewrite (rds_step_present db id db_class Hid Hcls).
  unfold has_size_token.
  destruct (contains "xlarge" db_class) eqn:E.
  - rewrite (contains_xlarge_large _ E). reflexivity.
  - now rewrite orb_false_r.
Qed.

Lemma database_rightsizing_on_large_bare :
  rds_instance_checks no_retention_field fleet_world []
  = Run (Ok tt) [RDS_RIGHTSIZING "db-bare" "db.m5.large"] [].
Proof.
  apply (database_rightsizing_on_large no_retention_field fleet_world []
           "db-bare" "db.m5.large"); reflexivity.
Defined.

(** ** The notifier (lines 282-295) *)

(** X12.  [send_notification] never raises and calls [publish] exactly
    once, with the topic, the subject "Cost Optimization Report -
    <project> (<environment>)" and the report; it then logs the success,
    or the error of a failed call. *)
Theorem send_notification_publishes_once
    sns_client topic_arn report project_name environment w :
  let subject :=
    "Cost Optimization Report - " ++ project_name ++ " (" ++ environment ++ ")" in
  let r := send_notification (S:=unit) sns_client topic_arn report project_name
                             environment w tt in
  outcome r = Ok tt
  /\ (sns_publish sns_client topic_arn subject report = Ok tt ->
      trace r = [ Publish topic_arn subject report;
                  Print "Cost optimization report sent successfully" ])
  /\ (forall e,
      sns_publish sns_client topic_arn subject report = Raise e ->
      trace r = [ Publish topic_arn subject report;
                  Print ("Error sending notification: " ++ str_exn e) ]).
Proof.
  cbv zeta. rewrite send_notification_run. cbv zeta. cbn [outcome trace].
  split; [reflexivity|]. split.
  - intros H. now rewrite H.
  - intros e H. now rewrite H.
Qed.

Lemma send_notification_publishes_once_examples :
  trace (send_notification (S:=unit) sns_ok "arn:topic" "report" "apex-coder"
           "production" idle_world tt)
    = [ Publish "arn:topic" "Cost Optimization Report - apex-coder (production)"
                "report";
        Print "Cost optimization report sent successfully" ]
  /\ trace (send_notification (S:=unit)
              {| sns_publish := fun _ _ _ => Raise (ServiceError "NotFound") |}
              "arn:topic" "report" "apex-coder" "production" idle_world tt)
     = [ Publish "arn:topic" "Cost Optimization Report - apex-coder (production)"
                 "report";
         Print "Error sending notification: NotFound" ].
Proof.
  pose proof (send_notification_publishes_once sns_ok "arn:topic" "report"
                "apex-coder" "production" idle_world) as Hok.
  pose proof (send_notification_publishes_once
                {| sns_publish := fun _ _ _ => Raise (ServiceError "NotFound") |}
                "arn:topic" "report" "apex-coder" "production" idle_world)
    as Hfail.
  cbv zeta in Hok, Hfail.
  destruct Hok as (_ & Hok & _). destruct Hfail as (_ & _ & Hfail).
  split.
  - apply Hok. reflexivity.
  - apply (Hfail (ServiceError "NotFound")). reflexivity.
Defined.

(** ** The recommendation section of the report (lines 265-276) *)

Lemma dict_mem_lookup {V} (d : dict V) k :
  dict_mem d k = true -> exists v, dict_lookup d k = Some v.
Proof. unfold dict_mem. destruct (dict_lookup d k); [eauto | discriminate]. Qed.

Lemma entry_block_printable i rec w report :
  printable rec = true ->
  entry_block (i, rec) w report = Run (Ok tt) (report ++ entry_text (i, rec)) [].
Proof.
  unfold printable. intros H. apply andb_true_iff in H. destruct H as [Ht Hr].
  destruct (dict_mem_lookup _ _ Ht) as [type Htype].
  destruct (dict_mem_lookup _ _ Hr) as [text Htext].
  unfold entry_block, entry_text, dict_get, dict_mem. rewrite Htype, Htext.
  run_unfold. rewrite Htype, Htext.
  destruct (dict_lookup rec "resource") as [resource|];
    destruct (dict_lookup rec "potential_savings") as [savings|];
    run_unfold; f_equal; rewrite ?append_assoc; cbn [String.append];
    rewrite ?append_assoc, ?append_nil_r; reflexivity.
Qed.

Lemma entry_blocks_printable recommendations start w report :
  Forall (fun rec => printable rec = true) recommendations ->
  for_each (enumerate recommendations start) entry_block w report
  = Run (Ok tt)
        (report ++ join (map entry_text (enumerate recommendations start))) [].
Proof.
  intros H. revert start report.
  induction H as [|rec recs Hrec _ IH]; intros start report.
  - simpl. now rewrite append_nil_r.
  - cbn [enumerate for_each map join fold_right]. unfold bind.
    rewrite (entry_block_printable start rec w report Hrec).
    rewrite IH. cbn [outcome locals trace app]. now rewrite append_assoc.
Qed.

Lemma entry_blocks_stop_at_untyped pre bad post start w report :
  Forall (fun rec => printable rec = true) pre ->
  dict_lookup bad "type" = None ->
  for_each (enumerate (pre ++ bad :: post) start) entry_block w report
  = Run (Raise (KeyError "type"))
        (report ++ join (map entry_text (enumerate pre start))) [].
Proof.
  intros H Hbad. revert start report.
  induction H as [|rec recs Hrec _ IH]; intros start report.
  - cbn [app enumerate for_each map join fold_right]. unfold bind.
    unfold entry_block. run_unfold. rewrite Hbad. now rewrite append_nil_r.
  - cbn [app enumerate for_each map join fold_right]. unfold bind.
    rewrite (entry_block_printable start rec w report Hrec).
    rewrite IH. cbn [outcome locals trace app]. now rewrite append_assoc.
Qed.

Lemma recommendations_section_total recommendations w report :
  Forall (fun rec => printable rec = true) recommendations ->
  exists text,
    recommendations_section recommendations w report
    = Run (Ok tt) (report ++ text) [].
Proof.
  intros H. destruct recommendations as [|rec recs]; [eexists; reflexivity|].
  unfold recommendations_section. unfold bind at 1.
  cbn [modify outcome locals trace].
  change (for_each (enumerate (rec :: recs) 1) _)
    with (for_each (enumerate (rec :: recs) 1) entry_block).
  rewrite (entry_blocks_printable (rec :: recs) 1 w _ H).
  cbn [outcome locals trace app]. rewrite append_assoc. eexists. reflexivity.
Qed.

(** X13.  For a non-empty list whose records all carry a type and a
    recommendation text, the section never raises: it appends the
    heading with the number of records, then one block per record,
    numbered from 1 in list order.  For the empty list it appends the
    fixed sentence and no numbered block. *)
Theorem recommendations_section_text recommendations w report :
  Forall (fun rec => printable rec = true) recommendations ->
  recommendations_section recommendations w report
  = Run (Ok tt)
        (report ++
           match recommendations with
           | [] =>
               nl ++ "No optimization recommendations found at this time." ++ nl
           | _ :: _ =>
               section_heading recommendations
                 ++ join (map entry_text (enumerate recommendations 1))
           end) [].
Proof.
  intros H. destruct recommendations as [|rec recs]; [reflexivity|].
  unfold recommendations_section. unfold bind at 1.
  cbn [modify outcome locals trace].
  change (for_each (enumerate (rec :: recs) 1) _)
    with (for_each (enumerate (rec :: recs) 1) entry_block).
  rewrite (entry_blocks_printable (rec :: recs) 1 w _ H).
  cbn [outcome locals trace app]. unfold section_heading.
  f_equal. rewrite !append_assoc. reflexivity.
Qed.

Lemma recommendations_section_text_examples :
  recommendations_section
    [EC2_SPOT_INSTANCES "i-0large"; S3_LIFECYCLE_OPTIMIZATION] idle_world
    EmptyString
  = Run (Ok tt)
        (section_heading [EC2_SPOT_INSTANCES "i-0large"; S3_LIFECYCLE_OPTIMIZATION]
           ++ entry_text (1, EC2_SPOT_INSTANCES "i-0large")
           ++ entry_text (2, S3_LIFECYCLE_OPTIMIZATION)) []
  /\ recommendations_section [] idle_world EmptyString
     = Run (Ok tt)
           (nl ++ "No optimization recommendations found at this time." ++ nl) [].
Proof.
  split.
  - rewrite (recommendations_section_text
               [EC2_SPOT_INSTANCES "i-0large"; S3_LIFECYCLE_OPTIMIZATION]
               idle_world EmptyString); [reflexivity|].
    repeat constructor.
  - apply (recommendations_section_text [] idle_world EmptyString). constructor.
Defined.

(** X14.  A record without a type stops the section with
    KeyError('type'): the heading and the blocks of the records before
    it have been appended, nothing of that record or of the later ones
    has. *)
Theorem recommendations_section_stops_at_untyped pre bad post w report :
  Forall (fun rec => printable rec = true) pre ->
  dict_lookup bad "type" = None ->
  recommendations_section (pre ++ bad :: post) w report
  = Run (Raise (KeyError "type"))
        (report ++ section_heading (pre ++ bad :: post)
                ++ join (map entry_text (enumerate pre 1))) [].
Proof.
  intros H Hbad.
  assert (Hne : exists rec recs, (pre ++ bad :: post)%list = rec :: recs).
  { destruct pre; simpl; eauto. }
  destruct Hne as (rec & recs & Hne).
  unfold recommendations_section. rewrite Hne. unfold bind at 1.
  cbn [modify outcome locals trace]. rewrite <- Hne.
  change (for_each (enumerate (pre ++ bad :: post) 1) _)
    with (for_each (enumerate (pre ++ bad :: post) 1) entry_block).
  rewrite (entry_blocks_stop_at_untyped pre bad post 1 w _ H Hbad).
  unfold section_heading. f_equal. rewrite !append_assoc. reflexivity.
Qed.

Lemma recommendations_section_stops_at_untyped_example :
  recommendations_section [S3_LIFECYCLE_OPTIMIZATION; untyped_entry] idle_world
    EmptyString
  = Run (Raise (KeyError "type"))
        (section_heading [S3_LIFECYCLE_OPTIMIZATION; untyped_entry]
           ++ entry_text (1, S3_LIFECYCLE_OPTIMIZATION)) [].
Proof.
  apply (recommendations_section_stops_at_untyped
           [S3_LIFECYCLE_OPTIMIZATION] untyped_entry [] idle_world EmptyString);
    [repeat constructor | reflexivity].
Defined.

(** ** The analyzers feed the report *)

Lemma scan_Forall {A} (P : recommendation -> Prop)
    (step : A -> result (list recommendation)) xs :
  (forall x rs, step x = Ok rs -> Forall P rs) ->
  Forall P (fst (scan step xs)).
Proof.
  intros Hstep. induction xs as [|x xs IH]; simpl; [constructor|].
  destruct (step x) as [rs|e] eqn:E; [|constructor].
  destruct (scan step xs) as [rest err]. cbn [fst] in *.
  apply Forall_app. split; [now apply (Hstep x) | exact IH].
Qed.

Lemma ec2_step_complete i rs :
  ec2_step i = Ok rs -> Forall (fun rec => complete_entry rec = true) rs.
Proof.
  unfold ec2_step. destruct (InstanceType i) as [ty|]; [|discriminate].
  destruct (is_large_class ty), (not_spot i), (InstanceId i);
    cbn [orb]; intros [= <-]; repeat constructor.
Qed.

Lemma rds_step_complete db rs :
  rds_step db = Ok rs -> Forall (fun rec => complete_entry rec = true) rs.
Proof.
  unfold rds_step. destruct (DBInstanceClass db) as [cls|]; [|discriminate].
  destruct (has_size_token cls), (retention_of db >? 7),
           (DBInstanceIdentifier db);
    cbn [orb]; intros [= <-]; repeat constructor.
Qed.

Lemma stopped_step_complete i rs :
  stopped_step i = Ok rs -> Forall (fun rec => complete_entry rec = true) rs.
Proof.
  unfold stopped_step. destruct (InstanceId i); intros [= <-].
  repeat constructor.
Qed.

Lemma volume_step_complete w v rs :
  volume_step w v = Ok rs -> Forall (fun rec => complete_entry rec = true) rs.
Proof.
  unfold volume_step. destruct (VolumeId v); [|discriminate].
  destruct (Size v); intros [= <-]. repeat constructor.
Qed.

Lemma analyzer_outputs_complete w service_costs :
  Forall (fun rec => complete_entry rec = true)
    (returned (ec2_call w service_costs)
       ++ returned (rds_call w service_costs)
       ++ returned (storage_call w service_costs)
       ++ returned (unused_call w))%list.
Proof.
  unfold ec2_call, rds_call, storage_call, unused_call.
  rewrite analyze_ec2_costs_run, analyze_rds_costs_run,
          analyze_storage_costs_run, check_unused_resources_run.
  rewrite !Forall_app. repeat split.
  - destruct (_ >? _)%D; [|constructor].
    destruct (ec2_describe_instances _ _); [|constructor].
    apply scan_Forall, ec2_step_complete.
  - destruct (_ >? _)%D; [|constructor].
    destruct (rds_describe_db_instances _); [|constructor].
    apply scan_Forall, rds_step_complete.
  - unfold returned. cbn [outcome].
    destruct (_ >? _)%D, (_ >? _)%D; repeat constructor.
  - destruct (ec2_describe_instances _ _); [|constructor].
    cbv zeta. destruct (snd _) eqn:E.
    + apply scan_Forall, stopped_step_complete.
    + destruct (ec2_describe_volumes _ _).
      * unfold returned. cbn [outcome]. apply Forall_app. split.
        -- apply scan_Forall, stopped_step_complete.
        -- apply scan_Forall, volume_step_complete.
      * apply scan_Forall, stopped_step_complete.
Qed.

(** X15.  Whatever the world, every record the four analyzers produce
    carries a type, a recommendation text and a savings text, so the
    recommendation section of the report never raises on the list the
    handler hands to it. *)
Theorem analyzer_output_is_printable w service_costs report :
  let recommendations :=
    locals (run_analyzers (boto3_ec2 w) (boto3_rds w) service_costs w []) in
  Forall (fun rec => complete_entry rec = true) recommendations
  /\ exists text,
       recommendations_section recommendations w report
       = Run (Ok tt) (report ++ text) [].
Proof.
  cbv zeta. rewrite run_analyzers_run. cbn [locals app].
  pose proof (analyzer_outputs_complete w service_costs) as H.
  split; [exact H|].
  apply recommendations_section_total.
  eapply Forall_impl; [|exact H].
  intros rec Hrec. unfold complete_entry in Hrec.
  now apply andb_true_iff in Hrec.
Qed.

(** ** The handler: configuration and calls *)

(** X16.  The three configuration values are read before the [try]: a
    missing one makes the handler raise KeyError for the first missing
    name, before any service is called and without any response. *)
Theorem handler_requires_configuration w :
  (dict_lookup (environ w) "PROJECT_NAME" = None ->
   invoke w = Run (Raise (KeyError "PROJECT_NAME")) tt [])
  /\ (dict_lookup (environ w) "PROJECT_NAME" <> None ->
      dict_lookup (environ w) "ENVIRONMENT" = None ->
      invoke w = Run (Raise (KeyError "ENVIRONMENT")) tt [])
  /\ (dict_lookup (environ w) "PROJECT_NAME" <> None ->
      dict_lookup (environ w) "ENVIRONMENT" <> None ->
      dict_lookup (environ w) "SNS_TOPIC_ARN" = None ->
      invoke w = Run (Raise (KeyError "SNS_TOPIC_ARN")) tt []).
Proof.
  unfold invoke, handler, os_environ. repeat split.
  - intros Hp. run_unfold. now rewrite Hp.
  - intros Hp He. destruct (dict_lookup (environ w) "PROJECT_NAME") eqn:E;
      [|congruence].
    run_unfold. rewrite E. run_unfold. now rewrite He.
  - intros Hp He Ht.
    destruct (dict_lookup (environ w) "PROJECT_NAME") eqn:E1; [|congruence].
    destruct (dict_lookup (environ w) "ENVIRONMENT") eqn:E2; [|congruence].
    run_unfold. rewrite E1. run_unfold. rewrite E2. run_unfold. now rewrite Ht.
Qed.

Lemma handler_requires_configuration_examples :
  invoke {| environ := [];
            today := today idle_world;
            now_strftime := now_strftime idle_world;
            boto3_ce := boto3_ce idle_world;
            boto3_ec2 := boto3_ec2 idle_world;
            boto3_rds := boto3_rds idle_world;
            boto3_sns := boto3_sns idle_world;
            float_2f := float_2f idle_world;
            volume_savings_2f := volume_savings_2f idle_world |}
    = Run (Raise (KeyError "PROJECT_NAME")) tt []
  /\ invoke {| environ := [("PROJECT_NAME", "apex-coder");
                           ("ENVIRONMENT", "production")];
               today := today idle_world;
               now_strftime := now_strftime idle_world;
               boto3_ce := boto3_ce idle_world;
               boto3_ec2 := boto3_ec2 idle_world;
               boto3_rds := boto3_rds idle_world;
               boto3_sns := boto3_sns idle_world;
               float_2f := float_2f idle_world;
               volume_savings_2f := volume_savings_2f idle_world |}
     = Run (Raise (KeyError "SNS_TOPIC_ARN")) tt [].
Proof.
  split.
  - apply handler_requires_configuration. reflexivity.
  - apply handler_requires_configuration; [discriminate | discriminate | reflexivity].
Defined.

Lemma count_calls_app p t1 t2 :
  count_calls p (t1 ++ t2) = (count_calls p t1 + count_calls p t2)%nat.
Proof. unfold count_calls. now rewrite filter_app, length_app. Qed.

Lemma calls_at_most_app i1 v1 d1 i2 v2 d2 t1 t2 :
  calls_at_most i1 v1 d1 t1 -> calls_at_most i2 v2 d2 t2 ->
  calls_at_most (i1 + i2) (v1 + v2) (d1 + d2) (t1 ++ t2).
Proof.
  unfold calls_at_most. rewrite !count_calls_app.
  intros (? & ? & ? & ? & ?) (? & ? & ? & ? & ?). repeat split; lia.
Qed.

Lemma calls_at_most_logged prefix err : calls_at_most 0 0 0 (logged prefix err).
Proof. destruct err; cbv; repeat split; lia. Qed.

Lemma calls_at_most_cons_logged ev prefix err i v d :
  calls_at_most i v d [ev] ->
  calls_at_most i v d (ev :: logged prefix err).
Proof.
  intros H. change (ev :: logged prefix err) with ([ev] ++ logged prefix err)%list.
  replace i with (i + 0)%nat by lia. replace v with (v + 0)%nat by lia.
  replace d with (d + 0)%nat by lia.
  apply calls_at_most_app; [exact H | apply calls_at_most_logged].
Qed.

Lemma ec2_call_calls w service_costs :
  calls_at_most 1 0 0 (trace (ec2_call w service_costs)).
Proof.
  unfold ec2_call. rewrite analyze_ec2_costs_run.
  destruct (_ >? _)%D; [|cbv; repeat split; lia].
  destruct (ec2_describe_instances _ _); cbn [trace].
  - apply calls_at_most_cons_logged. cbv; repeat split; lia.
  - cbv; repeat split; lia.
Qed.

Lemma rds_call_calls w service_costs :
  calls_at_most 0 0 1 (trace (rds_call w service_costs)).
Proof.
  unfold rds_call. rewrite analyze_rds_costs_run.
  destruct (_ >? _)%D; [|cbv; repeat split; lia].
  destruct (rds_describe_db_instances _); cbn [trace].
  - apply calls_at_most_cons_logged. cbv; repeat split; lia.
  - cbv; repeat split; lia.
Qed.

Lemma unused_call_calls w : calls_at_most 1 1 0 (trace (unused_call w)).
Proof.
  unfold unused_call. rewrite check_unused_resources_run.
  destruct (ec2_describe_instances _ _); [|cbv; repeat split; lia].
  cbv zeta. destruct (snd _); [cbv; repeat split; lia|].
  destruct (ec2_describe_volumes _ _) as [volumes|e]; cbn [trace];
    [|cbv; repeat split; lia].
  change (DescribeInstances stopped_filters :: DescribeVolumes volume_filters
            :: logged "Error checking unused resources: "
                 (snd (scan (volume_step w) volumes)))
    with ([DescribeInstances stopped_filters]
            ++ DescribeVolumes volume_filters
            :: logged "Error checking unused resources: "
                 (snd (scan (volume_step w) volumes)))%list.
  apply (calls_at_most_app 1 0 0 0 1 0); [cbv; repeat split; lia|].
  apply calls_at_most_cons_logged. cbv; repeat split; lia.
Qed.

(** X17.  With its configuration present, one invocation calls the
    billing service exactly once and never again; it queries the
    instances at most twice, the volumes at most once and the databases
    at most once, and it never publishes: no call is retried. *)
Theorem handler_calls_each_service_once
    w project_name environment sns_topic_arn :
  dict_lookup (environ w) "PROJECT_NAME" = Some project_name ->
  dict_lookup (environ w) "ENVIRONMENT" = Some environment ->
  dict_lookup (environ w) "SNS_TOPIC_ARN" = Some sns_topic_arn ->
  exists rest,
    trace (invoke w) = GetCostAndUsage (billing_request w project_name) :: rest
    /\ calls_at_most 2 1 1 rest.
Proof.
  intros Hp He Ht. unfold invoke.
  rewrite (handler_run w tt _ _ _ Hp He Ht).
  destruct (ce_get_cost_and_usage _ _) as [cost_response|e]; cbn [trace].
  - eexists. split; [reflexivity|].
    rewrite <- !app_assoc.
    apply (calls_at_most_app 1 0 0 1 1 1); [apply ec2_call_calls|].
    apply (calls_at_most_app 0 0 1 1 1 0); [apply rds_call_calls|].
    apply (calls_at_most_app 0 0 0 1 1 0).
    { unfold storage_call. rewrite analyze_storage_costs_run.
      cbv; repeat split; lia. }
    apply (calls_at_most_app 1 1 0 0 0 0); [apply unused_call_calls|].
    cbv; repeat split; lia.
  - eexists. split; [reflexivity|]. cbv; repeat split; lia.
Qed.

Lemma handler_calls_each_service_once_fleet :
  exists rest,
    trace (invoke fleet_world)
      = GetCostAndUsage (billing_request fleet_world "apex-coder") :: rest
    /\ calls_at_most 2 1 1 rest.
Proof.
  apply (handler_calls_each_service_once fleet_world "apex-coder" "production"
           "arn:aws:sns:us-east-1:123456789012:cost"); reflexivity.
Defined.

(** ** Exact sums (lines 58-59) *)

Lemma len_fuel_bound fuel c n :
  1 <= n -> 0 <= c < 10 ^ n -> PyDecimal.len_fuel fuel c <= n.
Proof.
  revert c n. induction fuel as [|fuel IH]; intros c n Hn Hc;
    cbn [PyDecimal.len_fuel]; [lia|].
  destruct (Z.ltb_spec c 10); [lia|].
  assert (2 <= n).
  { destruct (Z.eq_dec n 1) as [->|]; [change (10 ^ 1) with 10 in Hc; lia | lia]. }
  assert (PyDecimal.len_fuel fuel (c / 10) <= n - 1); [|lia].
  apply IH; [lia|]. split; [apply Z.div_pos; lia|].
  apply Z.div_lt_upper_bound; [lia|].
  replace n with (1 + (n - 1)) in Hc by lia.
  rewrite Z.pow_add_r in Hc by lia. change (10 ^ 1) with 10 in Hc. lia.
Qed.

Lemma fix_small sign c e :
  0 <= c < 10 ^ 28 ->
  PyDecimal.fix_ (PyDecimal.Dec sign c e) = PyDecimal.Dec sign c e.
Proof.
  intros Hc. unfold PyDecimal.fix_. cbn [PyDecimal.d_int].
  assert (PyDecimal.len c <= 28) by (apply len_fuel_bound; lia).
  destruct (c =? 0); [reflexivity|]. cbn [orb]. unfold PyDecimal.prec.
  destruct (Z.leb_spec (PyDecimal.len c) 28); [reflexivity | lia].
Qed.

Lemma add_zero_amount c e :
  e <= 0 -> 0 <= c < 10 ^ 28 ->
  (Decimal 0 + PyDecimal.Dec false c e)%D = PyDecimal.Dec false c e.
Proof.
  intros He Hc. unfold PyDecimal.add, PyDecimal.is_zero, Decimal, PyDecimal.of_Z.
  cbn [PyDecimal.d_int PyDecimal.d_exp PyDecimal.d_sign Z.abs Z.eqb andb].
  rewrite Z.min_r by lia.
  destruct (Z.eqb_spec c 0) as [->|Hne].
  - apply fix_small. lia.
  - unfold PyDecimal.rescale, PyDecimal.prec.
    cbn [PyDecimal.d_int PyDecimal.d_exp PyDecimal.d_sign].
    rewrite Z.max_l by lia.
    destruct (Z.eqb_spec c 0); [contradiction|].
    destruct (Z.geb_spec e e); [|lia].
    rewrite Z.sub_diag, Z.pow_0_r, Z.mul_1_r. now apply fix_small.
Qed.

Lemma add_same_scale s c e :
  0 <= s -> 0 <= c -> s + c < 10 ^ 28 ->
  (PyDecimal.Dec false s e + PyDecimal.Dec false c e)%D
  = PyDecimal.Dec false (s + c) e.
Proof.
  intros Hs Hc Hsum. unfold PyDecimal.add, PyDecimal.is_zero, PyDecimal.signed.
  cbn [PyDecimal.d_int PyDecimal.d_exp PyDecimal.d_sign andb].
  rewrite Z.min_id.
  unfold PyDecimal.rescale, PyDecimal.prec.
  cbn [PyDecimal.d_int PyDecimal.d_exp PyDecimal.d_sign].
  rewrite Z.max_l by lia. rewrite Z.sub_diag, Z.pow_0_r, !Z.mul_1_r.
  destruct (Z.geb_spec e e); [|lia].
  destruct (Z.eqb_spec s 0) as [->|Hs0], (Z.eqb_spec c 0) as [->|Hc0];
    cbn [andb].
  - apply fix_small. lia.
  - rewrite Z.add_0_l. apply fix_small. lia.
  - rewrite Z.add_0_r. apply fix_small. lia.
  - destruct (Z.ltb_spec (s + c) 0); [lia|].
    rewrite Z.abs_eq by lia. apply fix_small. lia.
Qed.

Lemma coefficient_sum_nonneg e xs :
  Forall (on_scale e) xs -> 0 <= coefficient_sum xs.
Proof.
  unfold coefficient_sum. induction 1 as [|x xs (_ & _ & Hx) _ IH]; simpl; lia.
Qed.

Lemma fold_add_same_scale e xs s :
  Forall (on_scale e) xs -> 0 <= s -> s + coefficient_sum xs < 10 ^ 28 ->
  fold_left PyDecimal.add xs (PyDecimal.Dec false s e)
  = PyDecimal.Dec false (s + coefficient_sum xs) e.
Proof.
  intros H. revert s. induction H as [|x xs Hx Hxs IH]; intros s Hs Hsum.
  - simpl. unfold coefficient_sum. simpl. now rewrite Z.add_0_r.
  - pose proof (coefficient_sum_nonneg e xs Hxs) as Hrest.
    destruct x as [sign c ex]. destruct Hx as (Hsign & Hexp & Hc).
    cbn in Hsign, Hexp, Hc. subst sign ex.
    unfold coefficient_sum in *. cbn [map fold_right PyDecimal.d_int] in *.
    cbn [fold_left]. rewrite add_same_scale by lia.
    rewrite IH by lia. f_equal. lia.
Qed.

Lemma decimal_sum_same_scale e x xs :
  e <= 0 -> Forall (on_scale e) (x :: xs) ->
  coefficient_sum (x :: xs) < 10 ^ 28 ->
  decimal_sum (x :: xs) = PyDecimal.Dec false (coefficient_sum (x :: xs)) e.
Proof.
  intros He H Hsum. inversion H as [|? ? Hx Hxs]; subst.
  pose proof (coefficient_sum_nonneg e xs Hxs) as Hrest.
  destruct x as [sign c ex]. destruct Hx as (Hsign & Hexp & Hc).
  cbn in Hsign, Hexp, Hc. subst sign ex.
  unfold decimal_sum. cbn [fold_left].
  unfold coefficient_sum in *. cbn [map fold_right PyDecimal.d_int] in *.
  rewrite add_zero_amount by lia.
  apply (fold_add_same_scale e xs c Hxs); unfold coefficient_sum; lia.
Qed.

Lemma coefficient_sum_amounts_le e service groups :
  Forall (fun g => on_scale e (snd g)) groups ->
  Forall (on_scale e) (amounts_of service groups)
  /\ coefficient_sum (amounts_of service groups)
     <= coefficient_sum (map snd groups).
Proof.
  unfold amounts_of, coefficient_sum.
  induction 1 as [|g groups Hg _ [IH1 IH2]]; simpl; [split; [constructor|lia]|].
  destruct Hg as (Hs & He & Hc).
  destruct (String.eqb (fst g) service); simpl.
  - split; [constructor; [repeat split; assumption | exact IH1] | lia].
  - split; [exact IH1 | lia].
Qed.

(** X18.  When every amount of the response is non-negative and on one
    scale (the same non-positive exponent), and the coefficients add up
    to fewer than 29 digits, nothing is rounded: the grand total is the
    exact sum of all amounts and the cost of every service is the exact
    sum of its amounts. *)
Theorem aggregate_costs_exact cost_response e :
  e <= 0 ->
  List.concat cost_response <> [] ->
  Forall (fun g => on_scale e (snd g)) (List.concat cost_response) ->
  coefficient_sum (map snd (List.concat cost_response)) < 10 ^ 28 ->
  snd (aggregate_costs cost_response)
    = PyDecimal.Dec false
        (coefficient_sum (map snd (List.concat cost_response))) e
  /\ forall service,
       amounts_of service (List.concat cost_response) <> [] ->
       dict_lookup (fst (aggregate_costs cost_response)) service
       = Some (PyDecimal.Dec false
                 (coefficient_sum
                    (amounts_of service (List.concat cost_response))) e).
Proof.
  intros He Hne Hscale Hsum. rewrite aggregate_costs_flat. split.
  - rewrite aggregate_fold_total. cbn [snd].
    destruct (List.concat cost_response) as [|g groups]; [contradiction|].
    cbn [map]. apply (decimal_sum_same_scale e); [exact He | | exact Hsum].
    now apply Forall_map in Hscale.
  - intros service Hservice. rewrite aggregate_fold_lookup. cbn [fst dict_lookup].
    destruct (coefficient_sum_amounts_le e service _ Hscale) as [Hon Hle].
    destruct (amounts_of service (List.concat cost_response)) as [|x xs];
      [contradiction|].
    f_equal. apply (decimal_sum_same_scale e); [exact He | exact Hon | lia].
Qed.

Lemma aggregate_costs_exact_cents :
  snd (aggregate_costs cents_response) = PyDecimal.Dec false 2425 (-2)
  /\ dict_lookup (fst (aggregate_costs cents_response))
       "Amazon Simple Storage Service"
     = Some (PyDecimal.Dec false 2125 (-2)).
Proof.
  destruct (aggregate_costs_exact cents_response (-2)) as [Htotal Hservice].
  - lia.
  - discriminate.
  - repeat constructor; cbn; lia.
  - vm_compute. reflexivity.
  - split; [exact Htotal|].
    apply (Hservice "Amazon Simple Storage Service"). discriminate.
Defined.

(** ** From the bill to the analyzers *)

Lemma unbilled_service_costs_nothing cost_response service :
  amounts_of service (List.concat cost_response) = [] ->
  dict_get (fst (aggregate_costs cost_response)) service (Decimal 0) = Decimal 0.
Proof.
  intros H. unfold dict_get.
  rewrite aggregate_costs_flat, aggregate_fold_lookup, H. reflexivity.
Qed.

(** X19.  A service the billing response does not name costs 0 in the
    mapping, so its analyzer stays idle: without a compute amount the
    running instances are not queried, without a database amount the
    databases are not queried, and without storage amounts the storage
    analyzer returns nothing. *)
Theorem unbilled_services_are_not_analyzed w cost_response :
  let service_costs := fst (aggregate_costs cost_response) in
  let groups := List.concat cost_response in
  (amounts_of "Amazon Elastic Compute Cloud - Compute" groups = [] ->
   ec2_call w service_costs = Run (Ok []) tt [])
  /\ (amounts_of "Amazon Relational Database Service" groups = [] ->
      rds_call w service_costs = Run (Ok []) tt [])
  /\ (amounts_of "Amazon Simple Storage Service" groups = [] ->
      amounts_of "Amazon Elastic Block Store" groups = [] ->
      storage_call w service_costs = Run (Ok []) tt []).
Proof.
  cbv zeta. repeat split.
  - intros H. unfold ec2_call. rewrite analyze_ec2_costs_run.
    unfold ec2_cost_of. now rewrite (unbilled_service_costs_nothing _ _ H).
  - intros H. unfold rds_call. rewrite analyze_rds_costs_run.
    unfold rds_cost_of. now rewrite (unbilled_service_costs_nothing _ _ H).
  - intros H1 H2. unfold storage_call. rewrite analyze_storage_costs_run.
    now rewrite (unbilled_service_costs_nothing _ _ H1),
                (unbilled_service_costs_nothing _ _ H2).
Qed.

Lemma unbilled_services_are_not_analyzed_cents :
  ec2_call fleet_world (fst (aggregate_costs cents_response)) = Run (Ok []) tt []
  /\ rds_call fleet_world (fst (aggregate_costs cents_response))
     = Run (Ok []) tt [].
Proof.
  pose proof (unbilled_services_are_not_analyzed fleet_world cents_response) as H.
  cbv zeta in H. destruct H as (Hec2 & Hrds & _).
  split; [apply Hec2 | apply Hrds]; reflexivity.
Defined.
